(** * Package odfl: pickup requests to the Old Dominion SOAP API

    A shallow embedding of [olddominion.go].  The package keeps two
    package-level variables ([testMode], [timeout]) that its setters
    mutate, declares the request structs with their [xml] struct tags,
    and has one method, [RequestPickup], which marshals the request,
    posts it and unmarshals the reply.

    Go strings are byte strings: they are modelled as [string], whose
    characters are the 8-bit [ascii].  [time.Duration] is an [int64]
    count of nanoseconds: it is modelled as [Z] with the wrap-around of
    the 64-bit multiplication written out. *)

From Stdlib Require Import ZArith NArith List String Ascii Bool Lia.
From Stdlib Require Import DecimalString DecimalN DecimalPos.
From Stdlib Require Import Floats.PrimFloat.
Import ListNotations.

Local Open Scope string_scope.
Local Open Scope Z_scope.

(** ** Machine integers *)

Module Int64.

Definition modulus : Z := 2 ^ 64.
Definition half_modulus : Z := 2 ^ 63.
Definition min_signed : Z := - half_modulus.
Definition max_signed : Z := half_modulus - 1.

(** The value an [int64] holds after an arithmetic result [z] is stored
    in it: two's complement wrap-around. *)
Definition wrap (z : Z) : Z := (z + half_modulus) mod modulus - half_modulus.

Definition in_range (z : Z) : Prop := min_signed <= z <= max_signed.

Definition mul (a b : Z) : Z := wrap (a * b).

End Int64.

(** ** Package time *)

Module time.

(** [type Duration int64], in nanoseconds. *)
Definition Duration : Type := Z.

Definition Nanosecond : Duration := 1.
Definition Microsecond : Duration := 1000 * Nanosecond.
Definition Millisecond : Duration := 1000 * Microsecond.
Definition Second : Duration := 1000 * Millisecond.

End time.

(** ** Errors

    [errors.New] and [errors.Wrap] of github.com/pkg/errors: a wrapped
    error keeps its cause and carries the message of the wrapping site. *)

Inductive error : Type :=
| errors_New (msg : string)
| errors_Wrap (cause : error) (msg : string).

(** [err.Error()]: the messages from the outermost wrap to the cause. *)
Fixpoint Error (e : error) : string :=
  match e with
  | errors_New msg => msg
  | errors_Wrap cause msg => msg ++ ": " ++ Error cause
  end.

(** ** Package-level variables *)

Definition odURL : string := "http://www.odfl.com/wsPickup_v1b/services/ODPickupSOAP".
Definition soapenv : string := "http://schemas.xmlsoap.org/soap/envelope/".
Definition pic : string := "http://pickup.ws.odfl.com".

(** The two variables the setters write. *)
Record Globals : Type := mkGlobals {
  testMode : bool;
  timeout : time.Duration
}.

(** [var timeout = time.Duration(10 * time.Second)], [var testMode = true]. *)
Definition initial_globals : Globals :=
  {| testMode := true; timeout := 10 * time.Second |}.

(** ** Mode Controller *)

Definition SetProductionMode (yes : bool) (g : Globals) : Globals :=
  if yes then {| testMode := false; timeout := timeout g |} else g.

(** [timeout = time.Duration(seconds * time.Second)]: the product is an
    [int64] product. *)
Definition SetTimeout (seconds : time.Duration) (g : Globals) : Globals :=
  {| testMode := testMode g; timeout := Int64.mul seconds time.Second |}.

(** A call of one of the two setters. *)
Inductive ModeOp : Type :=
| CallSetProductionMode (yes : bool)
| CallSetTimeout (seconds : time.Duration).

Definition run_op (g : Globals) (op : ModeOp) : Globals :=
  match op with
  | CallSetProductionMode yes => SetProductionMode yes g
  | CallSetTimeout seconds => SetTimeout seconds g
  end.

(** The setters called one after the other, first call first. *)
Definition run_ops (ops : list ModeOp) (g : Globals) : Globals :=
  fold_left run_op ops g.

(** Whether [SetProductionMode(true)] occurs among the calls. *)
Definition promoted (ops : list ModeOp) : bool :=
  existsb (fun op => match op with
                     | CallSetProductionMode true => true
                     | _ => false
                     end) ops.

(** ** Strings *)

Module strings.

(** [strings.Split(s, sep)] for a one-byte separator: the pieces of [s]
    between the separators; never empty. *)
Fixpoint Split (sep : ascii) (s : string) : list string :=
  match s with
  | EmptyString => [EmptyString]
  | String c t =>
    if Ascii.eqb c sep then EmptyString :: Split sep t
    else match Split sep t with
         | h :: r => String c h :: r
         | [] => [String c EmptyString]
         end
  end.

(** [strings.Cut(s, sep)] for a one-byte separator: the text before and
    after the first separator, when there is one. *)
Fixpoint Cut (sep : ascii) (s : string) : option (string * string) :=
  match s with
  | EmptyString => None
  | String c t =>
    if Ascii.eqb c sep then Some (EmptyString, t)
    else match Cut sep t with
         | Some (before, after) => Some (String c before, after)
         | None => None
         end
  end.

(** [s[n:]]. *)
Fixpoint drop (n : nat) (s : string) : string :=
  match n, s with
  | O, _ => s
  | S n', String _ t => drop n' t
  | S _, EmptyString => EmptyString
  end.

(** [s[:n]]. *)
Fixpoint take (n : nat) (s : string) : string :=
  match n, s with
  | S n', String c t => String c (take n' t)
  | _, _ => EmptyString
  end.

End strings.

(** ** Package unicode/utf8 *)

Module utf8.

Local Open Scope N_scope.

Definition RuneError : N := 0xFFFD.

(** [utf8.DecodeRuneInString]: the first rune of [s] and its width in
    bytes; [(RuneError, 0)] on the empty string and [(RuneError, 1)] on
    an encoding that is not valid UTF-8. *)
Definition DecodeRuneInString (s : string) : N * nat :=
  match s with
  | EmptyString => (RuneError, 0%nat)
  | String c0 t0 =>
    let p0 := N_of_ascii c0 in
    if p0 <? 0x80 then (p0, 1%nat)
    else if (p0 <? 0xC2) || (0xF4 <? p0) then (RuneError, 1%nat)
    else
      (* the range accepted for the second byte *)
      let lo := if p0 =? 0xE0 then 0xA0 else if p0 =? 0xF0 then 0x90 else 0x80 in
      let hi := if p0 =? 0xED then 0x9F else if p0 =? 0xF4 then 0x8F else 0xBF in
      let cont b := (0x80 <=? b) && (b <=? 0xBF) in
      match t0 with
      | EmptyString => (RuneError, 1%nat)
      | String c1 t1 =>
        let b1 := N_of_ascii c1 in
        if negb ((lo <=? b1) && (b1 <=? hi)) then (RuneError, 1%nat)
        else if p0 <? 0xE0 then
          (N.lor (N.shiftl (N.land p0 0x1F) 6) (N.land b1 0x3F), 2%nat)
        else
          match t1 with
          | EmptyString => (RuneError, 1%nat)
          | String c2 t2 =>
            let b2 := N_of_ascii c2 in
            if negb (cont b2) then (RuneError, 1%nat)
            else if p0 <? 0xF0 then
              (N.lor (N.shiftl (N.land p0 0x0F) 12)
                     (N.lor (N.shiftl (N.land b1 0x3F) 6) (N.land b2 0x3F)),
               3%nat)
            else
              match t2 with
              | EmptyString => (RuneError, 1%nat)
              | String c3 _ =>
                let b3 := N_of_ascii c3 in
                if negb (cont b3) then (RuneError, 1%nat)
                else
                  (N.lor (N.shiftl (N.land p0 0x07) 18)
                         (N.lor (N.shiftl (N.land b1 0x3F) 12)
                                (N.lor (N.shiftl (N.land b2 0x3F) 6)
                                       (N.land b3 0x3F))),
                   4%nat)
              end
          end
      end
  end.

End utf8.

(** ** Package strconv *)

Module strconv.

Definition FormatBool (b : bool) : string := if b then "true" else "false".

(** [strconv.FormatUint(n, 10)]. *)
Definition FormatUint (n : N) : string := NilZero.string_of_uint (N.to_uint n).

End strconv.

(** ** Package reflect *)

Module reflect.

(** [reflect.Kind]. *)
Inductive Kind : Type :=
| Invalid | Bool
| Int | Int8 | Int16 | Int32 | Int64
| Uint | Uint8 | Uint16 | Uint32 | Uint64 | Uintptr
| Float32 | Float64 | Complex64 | Complex128
| Array | Chan | Func | Interface | Map | Pointer | Slice
| String | Struct | UnsafePointer.

End reflect.

(** ** Package encoding/xml: marshalling

    The part of the encoder that [xml.Marshal] runs on the structs of
    this package: struct tags are read into field descriptions
    ([structFieldInfo], [getTypeInfo]), a struct value is walked field
    by field ([marshalValue], [marshalStruct]) with the stack of open
    parent elements of [a>b>c] tags, and the start tags, character data
    and end tags are written with the encoder's escaping.

    A value is given to the encoder through reflection.  [GoValue] is
    the reflected value: the fields of a struct in declaration order,
    each with its name and its struct tag.  A struct tag is kept as the
    key/value pairs that [reflect.StructTag.Get] looks up. *)

Module xml.

Record Name : Type := mkName {
  Space : string;
  Local : string
}.

Record Attr : Type := mkAttr {
  AttrName : Name;
  Value : string
}.

Inductive Token : Type :=
| StartElement (name : Name) (attr : list Attr)
| EndElement (name : Name)
| CharData (data : string).

Record StructField : Type := mkField {
  FieldName : string;
  Tag : list (string * string)
}.

(** [tag.Get(key)]: the value of the first pair with that key, else the
    empty string. *)
Fixpoint Tag_Get (key : string) (tag : list (string * string)) : string :=
  match tag with
  | [] => ""
  | (k, v) :: rest => if String.eqb k key then v else Tag_Get key rest
  end.

#[warnings="-register-all"]
Inductive GoValue : Type :=
| VString (s : string)
| VBool (b : bool)
| VUint (n : N)
| VFloat64 (f : float)
| VStruct (typeName : string) (fields : list (StructField * GoValue)).

(** [typ.Name()]. *)
Definition typeName_of (v : GoValue) : string :=
  match v with
  | VString _ => "string"
  | VBool _ => "bool"
  | VUint _ => "uint"
  | VFloat64 _ => "float64"
  | VStruct n _ => n
  end.

Definition struct_fields (v : GoValue) : list StructField :=
  match v with
  | VStruct _ fs => map fst fs
  | _ => []
  end.

(** *** typeinfo.go *)

Definition fElement : N := 1.
Definition fAttr : N := 2.
Definition fCDATA : N := 4.
Definition fCharData : N := 8.
Definition fInnerXML : N := 16.
Definition fComment : N := 32.
Definition fAny : N := 64.
Definition fOmitEmpty : N := 128.
Definition fMode : N :=
  N.lor fElement (N.lor fAttr (N.lor fCDATA (N.lor fCharData
    (N.lor fInnerXML (N.lor fComment fAny))))).

Definition xmlName : string := "XMLName".

Definition has (flags flag : N) : bool := negb (N.land flags flag =? 0)%N.

Record fieldInfo : Type := mkFieldInfo {
  idx : nat;
  name : string;
  xmlns : string;
  flags : N;
  parents : list string
}.

Record typeInfo : Type := mkTypeInfo {
  xmlname : option fieldInfo;
  fields : list fieldInfo
}.

Definition flag_of (s : string) : N :=
  if String.eqb s "attr" then fAttr
  else if String.eqb s "cdata" then fCDATA
  else if String.eqb s "chardata" then fCharData
  else if String.eqb s "innerxml" then fInnerXML
  else if String.eqb s "comment" then fComment
  else if String.eqb s "any" then fAny
  else if String.eqb s "omitempty" then fOmitEmpty
  else 0%N.

Definition invalid_tag (f : StructField) : error :=
  errors_New ("xml: invalid tag in field " ++ FieldName f).

(** The first half of [structFieldInfo]: the namespace, the name part
    and the flags of the field's [xml] tag, with the flags validated. *)
Definition parseTag (f : StructField) : error + (string * string * N) :=
  let tag := Tag_Get "xml" (Tag f) in
  let '(ns, tag) := match strings.Cut " " tag with
                    | Some (ns, t) => (ns, t)
                    | None => ("", tag)
                    end in
  let tokens := strings.Split "," tag in
  let checked : error + (string * N) :=
    match tokens with
    | [] | [_] => inr (tag, fElement)
    | tag0 :: flagNames =>
      let fl := fold_left (fun acc s => N.lor acc (flag_of s)) flagNames 0%N in
      let mode := N.land fl fMode in
      let known :=
        existsb (N.eqb mode)
                [fAttr; fCDATA; fCharData; fInnerXML; fComment; fAny;
                 N.lor fAny fAttr] in
      let valid1 :=
        if (mode =? 0)%N then true
        else if known then
          negb (String.eqb (FieldName f) xmlName
                || (negb (String.eqb tag0 "") && negb (mode =? fAttr)%N))
        else false in
      let fl := if (mode =? 0)%N then N.lor fl fElement else fl in
      let fl := if (N.land fl fMode =? fAny)%N then N.lor fl fElement else fl in
      let valid2 :=
        negb (has fl fOmitEmpty
              && (N.land fl (N.lor fElement fAttr) =? 0)%N) in
      if valid1 && valid2 then inr (tag0, fl) else inl (invalid_tag f)
    end in
  match checked with
  | inl e => inl e
  | inr (tag, fl) =>
    if negb (String.eqb ns "") && String.eqb tag ""
    then inl (errors_New ("xml: namespace without name in field " ++ FieldName f))
    else inr (ns, tag, fl)
  end.

(** [lookupXMLName]: the namespace and name that a struct type's
    [XMLName] field declares in its tag, when it has one. *)
Definition lookupXMLName (typ : list StructField) : option (string * string) :=
  match find (fun f => String.eqb (FieldName f) xmlName) typ with
  | Some f =>
    match parseTag f with
    | inr (ns, tag, _) => if String.eqb tag "" then None else Some (ns, tag)
    | inl _ => None
    end
  | None => None
  end.

(** [structFieldInfo(typ, f)]; [ftyp] is the type of the field [f]. *)
Definition structFieldInfo (typ : list StructField) (i : nat)
           (f : StructField) (ftyp : list StructField) : error + fieldInfo :=
  match parseTag f with
  | inl e => inl e
  | inr (ns, tag, fl) =>
    if String.eqb (FieldName f) xmlName then
      inr (mkFieldInfo i tag ns fl [])
    else if String.eqb tag "" then
      match lookupXMLName ftyp with
      | Some (ns', n') => inr (mkFieldInfo i n' ns' fl [])
      | None => inr (mkFieldInfo i (FieldName f) ns fl [])
      end
    else
      let ns := if String.eqb ns "" && negb (has fl fAttr)
                then match lookupXMLName typ with
                     | Some (ns', _) => ns'
                     | None => ns
                     end
                else ns in
      let ps := strings.Split ">" tag in
      let ps := match ps with
                | p0 :: rest => (if String.eqb p0 "" then FieldName f else p0) :: rest
                | [] => []
                end in
      let nm := last ps "" in
      if String.eqb nm "" then
        inl (errors_New ("xml: trailing '>' in field " ++ FieldName f))
      else if (1 <? List.length ps)%nat && negb (has fl fElement) then
        inl (errors_New ("xml: " ++ tag ++ " chain not valid with this flag"))
      else
        let finfo := mkFieldInfo i nm ns fl (removelast ps) in
        if has fl fElement then
          match lookupXMLName ftyp with
          | Some (_, n') =>
            if String.eqb n' nm then inr finfo
            else inl (errors_New ("xml: name " ++ nm ++ " in tag of "
                                  ++ FieldName f ++ " conflicts with name "
                                  ++ n' ++ " in XMLName"))
          | None => inr finfo
          end
        else inr finfo
  end.

Definition list_eqb (a b : list string) : bool :=
  (List.length a =? List.length b)%nat
  && forallb (fun xy => String.eqb (fst xy) (snd xy)) (combine a b).

(** The test of [addFieldInfo]: whether the new field would be written
    at the path of a field already there. *)
Definition conflicts (oldf newf : fieldInfo) : bool :=
  if negb (N.land (flags oldf) fMode =? N.land (flags newf) fMode)%N then false
  else if negb (String.eqb (xmlns oldf) "") && negb (String.eqb (xmlns newf) "")
          && negb (String.eqb (xmlns oldf) (xmlns newf)) then false
  else
    let lo := List.length (parents oldf) in
    let ln := List.length (parents newf) in
    let minl := Nat.min ln lo in
    if negb (list_eqb (firstn minl (parents oldf)) (firstn minl (parents newf)))
    then false
    else if (ln <? lo)%nat then String.eqb (nth ln (parents oldf) "") (name newf)
    else if (lo <? ln)%nat then String.eqb (nth lo (parents newf) "") (name oldf)
    else String.eqb (name newf) (name oldf)
         && String.eqb (xmlns newf) (xmlns oldf).

Definition IsExported (nm : string) : bool :=
  match nm with
  | String c _ => (65 <=? nat_of_ascii c)%nat && (nat_of_ascii c <=? 90)%nat
  | EmptyString => false
  end.

(** [getTypeInfo] on a struct type without embedded fields: every
    field is at depth one, so a conflict is a [TagPathError]. *)
Fixpoint typeFields (typ : list StructField) (i : nat)
         (fs : list (StructField * GoValue)) (tinfo : typeInfo)
  : error + typeInfo :=
  match fs with
  | [] => inr tinfo
  | (f, fv) :: rest =>
    if negb (IsExported (FieldName f)) || String.eqb (Tag_Get "xml" (Tag f)) "-"
    then typeFields typ (S i) rest tinfo
    else
      match structFieldInfo typ i f (struct_fields fv) with
      | inl e => inl e
      | inr finfo =>
        if String.eqb (FieldName f) xmlName then
          typeFields typ (S i) rest (mkTypeInfo (Some finfo) (fields tinfo))
        else if existsb (fun oldf => conflicts oldf finfo) (fields tinfo) then
          inl (errors_New ("xml: " ++ FieldName f ++ " conflicts with another field"))
        else
          typeFields typ (S i) rest
                     (mkTypeInfo (xmlname tinfo) (fields tinfo ++ [finfo]))
      end
  end.

Definition getTypeInfo (fs : list (StructField * GoValue)) : error + typeInfo :=
  typeFields (map fst fs) 0 fs (mkTypeInfo None []).

(** *** xml.go: escaping *)

Definition dquote : string := String (ascii_of_nat 34) EmptyString.

Definition escQuot : string := "&#34;".
Definition escApos : string := "&#39;".
Definition escAmp : string := "&amp;".
Definition escLT : string := "&lt;".
Definition escGT : string := "&gt;".
Definition escTab : string := "&#x9;".
Definition escNL : string := "&#xA;".
Definition escCR : string := "&#xD;".
(** U+FFFD in UTF-8. *)
Definition escFFFD : string :=
  String (ascii_of_nat 239) (String (ascii_of_nat 191)
    (String (ascii_of_nat 189) EmptyString)).

Definition isInCharacterRange (r : N) : bool :=
  ((r =? 0x09) || (r =? 0x0A) || (r =? 0x0D)
   || ((0x20 <=? r) && (r <=? 0xD7FF))
   || ((0xE000 <=? r) && (r <=? 0xFFFD))
   || ((0x10000 <=? r) && (r <=? 0x10FFFF)))%N.

(** The replacement that [EscapeString] writes for a rune, when it does
    not copy the rune's bytes. *)
Definition escape_of (r : N) (width : nat) : option string :=
  if (r =? 34)%N then Some escQuot
  else if (r =? 39)%N then Some escApos
  else if (r =? 38)%N then Some escAmp
  else if (r =? 60)%N then Some escLT
  else if (r =? 62)%N then Some escGT
  else if (r =? 9)%N then Some escTab
  else if (r =? 10)%N then Some escNL
  else if (r =? 13)%N then Some escCR
  else if negb (isInCharacterRange r) || ((r =? utf8.RuneError)%N && (width =? 1)%nat)
       then Some escFFFD
  else None.

(** The loop of [EscapeString], one rune per step; [fuel] bounds the
    number of runes. *)
Fixpoint escape_runes (fuel : nat) (s : string) : string :=
  match fuel with
  | O => EmptyString
  | S fuel' =>
    match s with
    | EmptyString => EmptyString
    | String _ _ =>
      let '(r, width) := utf8.DecodeRuneInString s in
      (match escape_of r width with
       | Some esc => esc
       | None => strings.take width s
       end) ++ escape_runes fuel' (strings.drop width s)
    end
  end.

(** [EscapeString]: a rune takes at least one byte, so the length of
    the string is fuel enough. *)
Definition EscapeString (s : string) : string :=
  escape_runes (String.length s) s.

(** *** marshal.go: the printer *)

Definition writeAttr (a : Attr) : string :=
  if String.eqb (Local (AttrName a)) "" then ""
  else " " ++ Local (AttrName a) ++ "=" ++ dquote ++ EscapeString (Value a) ++ dquote.

(** [writeStart]; attributes in a namespace need a generated prefix and
    are outside the encoder's fragment modelled here. *)
Definition writeStart (nm : Name) (attrs : list Attr) : error + string :=
  if String.eqb (Local nm) "" then inl (errors_New "xml: start tag with no name")
  else if existsb (fun a => negb (String.eqb (Space (AttrName a)) "")) attrs
  then inl (errors_New "unmodelled: attribute in a namespace")
  else
    inr ("<" ++ Local nm
         ++ (if String.eqb (Space nm) "" then ""
             else " xmlns=" ++ dquote ++ EscapeString (Space nm) ++ dquote)
         ++ String.concat "" (map writeAttr attrs)
         ++ ">").

Definition Name_eqb (a b : Name) : bool :=
  String.eqb (Space a) (Space b) && String.eqb (Local a) (Local b).

(** [writeEnd] against the stack of open tags, innermost first. *)
Definition writeEnd (nm : Name) (tags : list Name) : error + (string * list Name) :=
  if String.eqb (Local nm) "" then inl (errors_New "xml: end tag with no name")
  else
    match tags with
    | [] => inl (errors_New ("xml: end tag </" ++ Local nm ++ "> without start tag"))
    | top :: below =>
      if Name_eqb top nm then inr ("</" ++ Local nm ++ ">", below)
      else inl (errors_New ("xml: end tag </" ++ Local nm
                            ++ "> does not match start tag <" ++ Local top ++ ">"))
    end.

(** The bytes the printer writes for a sequence of tokens; at the end
    no element may be left open. *)
Fixpoint print (tags : list Name) (ts : list Token) : error + string :=
  match ts with
  | [] =>
    match tags with
    | [] => inr ""
    | top :: _ => inl (errors_New ("xml: unclosed tag <" ++ Local top ++ ">"))
    end
  | StartElement nm attrs :: rest =>
    match writeStart nm attrs with
    | inl e => inl e
    | inr out =>
      match print (nm :: tags) rest with
      | inl e => inl e
      | inr more => inr (out ++ more)
      end
    end
  | EndElement nm :: rest =>
    match writeEnd nm tags with
    | inl e => inl e
    | inr (out, tags') =>
      match print tags' rest with
      | inl e => inl e
      | inr more => inr (out ++ more)
      end
    end
  | CharData data :: rest =>
    match print tags rest with
    | inl e => inl e
    | inr more => inr (EscapeString data ++ more)
    end
  end.

(** *** marshal.go: values *)

Section Marshal.

(** [strconv.FormatFloat(f, 'g', -1, 64)], the shortest decimal text
    that reads back as [f]. *)
Variable FormatFloat : float -> string.

Definition isEmptyValue (v : GoValue) : bool :=
  match v with
  | VString s => (String.length s =? 0)%nat
  | VBool b => negb b
  | VUint n => (n =? 0)%N
  | VFloat64 f => PrimFloat.eqb f PrimFloat.zero
  | VStruct _ _ => false
  end.

Definition marshalSimple (v : GoValue) : error + string :=
  match v with
  | VString s => inr s
  | VBool b => inr (strconv.FormatBool b)
  | VUint n => inr (strconv.FormatUint n)
  | VFloat64 f => inr (FormatFloat f)
  | VStruct n _ => inl (errors_New ("xml: unsupported type: " ++ n))
  end.

(** [parentStack.trim]: the end tags of the open parents that are not
    a prefix of [ps], innermost first, and the parents left open. *)
Fixpoint commonPrefix (ps stack : list string) : nat :=
  match ps, stack with
  | p :: ps', s :: stack' =>
    if String.eqb p s then S (commonPrefix ps' stack') else O
  | _, _ => O
  end.

Definition trim (ps stack : list string) : list Token * list string :=
  let split := commonPrefix ps stack in
  (map (fun s => EndElement (mkName "" s)) (rev (skipn split stack)),
   firstn split stack).

(** [parentStack.push]. *)
Definition push (ps stack : list string) : list Token * list string :=
  (map (fun s => StartElement (mkName "" s) []) ps, (stack ++ ps)%list).

(** The value of the struct's [XMLName] field, when it is an [xml.Name]. *)
Definition XMLName_value (fs : list (StructField * GoValue)) : option Name :=
  match find (fun fv => String.eqb (FieldName (fst fv)) xmlName) fs with
  | Some (_, VStruct _ [(_, VString sp); (_, VString lo)]) => Some (mkName sp lo)
  | _ => None
  end.

(** A struct's start tag name: the tag of its [XMLName] field, else the
    value of that field, else the field it is a value of, else the name
    of its type. *)
Definition startName (v : GoValue) (tinfo : option typeInfo)
           (fs : list (StructField * GoValue)) (finfo : option fieldInfo)
  : error + Name :=
  let n0 :=
    match tinfo with
    | Some ti =>
      match xmlname ti with
      | Some x =>
        if negb (String.eqb (name x) "") then mkName (xmlns x) (name x)
        else match XMLName_value fs with
             | Some n => if String.eqb (Local n) "" then mkName "" "" else n
             | None => mkName "" ""
             end
      | None => mkName "" ""
      end
    | None => mkName "" ""
    end in
  let n1 :=
    match finfo with
    | Some fi => if String.eqb (Local n0) "" then mkName (xmlns fi) (name fi) else n0
    | None => n0
    end in
  if String.eqb (Local n1) "" then
    if String.eqb (typeName_of v) ""
    then inl (errors_New "xml: unsupported type")
    else inr (mkName (Space n1) (typeName_of v))
  else inr n1.

(** The attributes of the start tag: the fields flagged [attr], in
    field order. *)
Fixpoint marshalAttrs (infos : list fieldInfo) (fs : list (StructField * GoValue))
  : error + list Attr :=
  match infos with
  | [] => inr []
  | fi :: rest =>
    if negb (has (flags fi) fAttr) then marshalAttrs rest fs
    else
      match nth_error fs (idx fi) with
      | None => marshalAttrs rest fs
      | Some (_, fv) =>
        if has (flags fi) fOmitEmpty && isEmptyValue fv then marshalAttrs rest fs
        else
          match marshalSimple fv with
          | inl e => inl e
          | inr s =>
            match marshalAttrs rest fs with
            | inl e => inl e
            | inr more => inr (mkAttr (mkName (xmlns fi) (name fi)) s :: more)
            end
          end
      end
  end.

Definition unmodelled_mode : error :=
  errors_New "unmodelled: chardata, cdata, innerxml or comment field".

(** [marshalValue], with the loop of [marshalStruct] over the fields
    inside it. *)
Fixpoint marshalValue (v : GoValue) (finfo : option fieldInfo) {struct v}
  : error + list Token :=
  if match finfo with
     | Some fi => has (flags fi) fOmitEmpty && isEmptyValue v
     | None => false
     end
  then inr []
  else
    match v with
    | VStruct _ fs =>
      match getTypeInfo fs with
      | inl e => inl e
      | inr tinfo =>
        match startName v (Some tinfo) fs finfo with
        | inl e => inl e
        | inr start =>
          match marshalAttrs (fields tinfo) fs with
          | inl e => inl e
          | inr attrs =>
            let marshalStruct :=
              fix loop (rest : list (StructField * GoValue)) (i : nat)
                       (stack : list string) {struct rest} : error + list Token :=
                match rest with
                | [] => inr (fst (trim [] stack))
                | (_, fv) :: rest' =>
                  match find (fun fi => (idx fi =? i)%nat) (fields tinfo) with
                  | None => loop rest' (S i) stack
                  | Some fi =>
                    if has (flags fi) fAttr then loop rest' (S i) stack
                    else if negb (has (flags fi) fElement) then inl unmodelled_mode
                    else
                      let '(ends, stack1) := trim (parents fi) stack in
                      let '(starts, stack2) :=
                        if (List.length stack1 <? List.length (parents fi))%nat
                        then push (skipn (List.length stack1) (parents fi)) stack1
                        else ([], stack1) in
                      match marshalValue fv (Some fi) with
                      | inl e => inl e
                      | inr toks =>
                        match loop rest' (S i) stack2 with
                        | inl e => inl e
                        | inr more => inr (ends ++ starts ++ toks ++ more)%list
                        end
                      end
                  end
                end in
            match marshalStruct fs O [] with
            | inl e => inl e
            | inr body => inr (StartElement start attrs :: body ++ [EndElement start])%list
            end
          end
        end
      end
    | _ =>
      match startName v None [] finfo with
      | inl e => inl e
      | inr start =>
        match marshalSimple v with
        | inl e => inl e
        | inr s => inr [StartElement start []; CharData s; EndElement start]
        end
      end
    end.

(** [xml.Marshal]. *)
Definition Marshal (v : GoValue) : error + string :=
  match marshalValue v None with
  | inl e => inl e
  | inr toks => print [] toks
  end.

End Marshal.

(** *** read.go: unmarshalling

    [Decoder.unmarshal] first reads tokens up to the first start
    element, and fails with the tokenizer's error when there is none.
    It then switches on the kind of the value it is to fill; a kind
    with no case of its own is refused with [unknown type].  The
    tokenizer and the cases of the kinds the decoder fills are the
    library's and are taken as they are. *)

Section Unmarshal.

(** The target value, the tokenizer run to the first start element, and
    the decoder's cases for the kinds it fills. *)
Variable target : Type.
Variable firstStartElement : string -> error + Name.
Variable decodeInto : reflect.Kind -> Name -> string -> target -> target * option error.

Definition unmarshal (k : reflect.Kind) (typeString : string)
           (data : string) (val : target) : target * option error :=
  match firstStartElement data with
  | inl e => (val, Some e)
  | inr start =>
    match k with
    | reflect.Interface | reflect.Pointer
    | reflect.Slice
    | reflect.Bool | reflect.Float32 | reflect.Float64
    | reflect.Int | reflect.Int8 | reflect.Int16 | reflect.Int32 | reflect.Int64
    | reflect.Uint | reflect.Uint8 | reflect.Uint16 | reflect.Uint32
    | reflect.Uint64 | reflect.Uintptr | reflect.String
    | reflect.Struct => decodeInto k start data val
    | _ => (val, Some (errors_New ("unknown type " ++ typeString)))
    end
  end.

(** [xml.Unmarshal(data, &m)] for [m] of type [map[string]interface{}]:
    the pointer is followed and the map is the value to fill. *)
Definition Unmarshal_map (data : string) (m : target) : target * option error :=
  unmarshal reflect.Map "map[string]interface {}" data m.

End Unmarshal.

End xml.

(** ** Request model

    The structs of the package.  Each field keeps its Go name; the
    struct tags are recorded with the reflected types further down. *)

Module Shipper.

Record t : Type := mk {
  (* required *)
  ODFL4MeUser : string;
  ODFL4MePassword : string;
  CompanyName : string;
  AddressLine1 : string;
  City : string;
  StateProvince : string;
  PostalCode : string;
  Country : string;
  ContactFName : string;
  ContactLName : string;
  PhoneAreaCode : string;
  PhoneNumber : string;
  TestFlag : bool;
  PickupDate : string;
  PickupTime : string;
  PickupTimeAMPM : string;
  WhoEntered : string;
  WhoPhoneNumber : string;
  (* optional *)
  AccountNumber : string;
  Attention : string;
  AddressLine2 : string;
  PhoneExt : string;
  FaxAreaCode : string;
  FaxNumber : string;
  Email : string;
  Comments : string;
  DockCloseTime : string;
  DockCloseAMPM : string
}.

(** The assignment [s.TestFlag = b]. *)
Definition set_TestFlag (b : bool) (s : t) : t :=
  mk (ODFL4MeUser s) (ODFL4MePassword s) (CompanyName s) (AddressLine1 s)
     (City s) (StateProvince s) (PostalCode s) (Country s) (ContactFName s)
     (ContactLName s) (PhoneAreaCode s) (PhoneNumber s) b (PickupDate s)
     (PickupTime s) (PickupTimeAMPM s) (WhoEntered s) (WhoPhoneNumber s)
     (AccountNumber s) (Attention s) (AddressLine2 s) (PhoneExt s)
     (FaxAreaCode s) (FaxNumber s) (Email s) (Comments s) (DockCloseTime s)
     (DockCloseAMPM s).

(** [reflect.ValueOf(s)]: the fields in declaration order, each with
    its struct tag as written in the source. *)
Definition ValueOf (s : t) : xml.GoValue :=
  xml.VStruct "Shipper" [
    (xml.mkField "ODFL4MeUser" [("xml", "odfl4meUser")], xml.VString (ODFL4MeUser s));
    (xml.mkField "ODFL4MePassword" [("xml", "odfl4mePassword")], xml.VString (ODFL4MePassword s));
    (xml.mkField "CompanyName" [("xml", "companyName")], xml.VString (CompanyName s));
    (xml.mkField "AddressLine1" [("xml", "addressLine1")], xml.VString (AddressLine1 s));
    (xml.mkField "City" [("xml", "city")], xml.VString (City s));
    (xml.mkField "StateProvince" [("xml", "stateProvince")], xml.VString (StateProvince s));
    (xml.mkField "PostalCode" [("xml", "postalCode")], xml.VString (PostalCode s));
    (xml.mkField "Country" [("xmml", "country")], xml.VString (Country s));
    (xml.mkField "ContactFName" [("xml", "contactFName")], xml.VString (ContactFName s));
    (xml.mkField "ContactLName" [("xml", "contactLName")], xml.VString (ContactLName s));
    (xml.mkField "PhoneAreaCode" [("xml", "phoneAreaCode")], xml.VString (PhoneAreaCode s));
    (xml.mkField "PhoneNumber" [("xml", "phoneNumber")], xml.VString (PhoneNumber s));
    (xml.mkField "TestFlag" [("xml", "testFlag")], xml.VBool (TestFlag s));
    (xml.mkField "PickupDate" [("xml", "pickupDate")], xml.VString (PickupDate s));
    (xml.mkField "PickupTime" [("xml", "pickupTime")], xml.VString (PickupTime s));
    (xml.mkField "PickupTimeAMPM" [("xml", "pickupTimeAMPM")], xml.VString (PickupTimeAMPM s));
    (xml.mkField "WhoEntered" [("xml", "whoEntered")], xml.VString (WhoEntered s));
    (xml.mkField "WhoPhoneNumber" [("xml", "whoPhoneNumber")], xml.VString (WhoPhoneNumber s));
    (xml.mkField "AccountNumber" [("xml", "accountNumber")], xml.VString (AccountNumber s));
    (xml.mkField "Attention" [("xml", "attention")], xml.VString (Attention s));
    (xml.mkField "AddressLine2" [("xml", "addressLine2")], xml.VString (AddressLine2 s));
    (xml.mkField "PhoneExt" [("xml", "phoneExt")], xml.VString (PhoneExt s));
    (xml.mkField "FaxAreaCode" [("xml", "faxAreaCode")], xml.VString (FaxAreaCode s));
    (xml.mkField "FaxNumber" [("xml", "faxNumber")], xml.VString (FaxNumber s));
    (xml.mkField "Email" [("xml", "email")], xml.VString (Email s));
    (xml.mkField "Comments" [("xml", "comments")], xml.VString (Comments s));
    (xml.mkField "DockCloseTime" [("xml", "dockCloseTime")], xml.VString (DockCloseTime s));
    (xml.mkField "DockCloseAMPM" [("xml", "dockCloseAMPM")], xml.VString (DockCloseAMPM s))
  ].

End Shipper.

Module Consignee.

Record t : Type := mk {
  (* required *)
  CustomerShipmentID : string;
  City : string;
  StateProvince : string;
  PostalCode : string;
  Country : string;
  PhoneAreaCode : string;
  PhoneNumber : string;
  HandlingUnits : N;
  Pieces : N;
  UnitType : string;
  Weight : float;
  (* optional *)
  PaymentMethod : string;
  CompanyName : string;
  AddressLine1 : string;
  AddressLine2 : string;
  ContactFName : string;
  ContactLName : string;
  PhoneExt : string;
  FaxAreaCode : string;
  FaxNumber : string;
  Email : string;
  Hazmat : string;
  Freezable : string;
  Description : string
}.

Definition ValueOf (c : t) : xml.GoValue :=
  xml.VStruct "Consignee" [
    (xml.mkField "CustomerShipmentID" [("xml", "customerShipmentId")], xml.VString (CustomerShipmentID c));
    (xml.mkField "City" [("xml", "city")], xml.VString (City c));
    (xml.mkField "StateProvince" [("xml", "stateProvince")], xml.VString (StateProvince c));
    (xml.mkField "PostalCode" [("xml", "postalCode")], xml.VString (PostalCode c));
    (xml.mkField "Country" [("xml", "country")], xml.VString (Country c));
    (xml.mkField "PhoneAreaCode" [("xml", "phoneAreaCode")], xml.VString (PhoneAreaCode c));
    (xml.mkField "PhoneNumber" [("xml", "phoneNumber")], xml.VString (PhoneNumber c));
    (xml.mkField "HandlingUnits" [("xml", "handlingUnits")], xml.VUint (HandlingUnits c));
    (xml.mkField "Pieces" [("xml", "pieces")], xml.VUint (Pieces c));
    (xml.mkField "UnitType" [("xml", "unitType")], xml.VString (UnitType c));
    (xml.mkField "Weight" [("xml", "weight")], xml.VFloat64 (Weight c));
    (xml.mkField "PaymentMethod" [("xml", "paymentMethod")], xml.VString (PaymentMethod c));
    (xml.mkField "CompanyName" [("xml", "companyName")], xml.VString (CompanyName c));
    (xml.mkField "AddressLine1" [("xml", "addressLine1")], xml.VString (AddressLine1 c));
    (xml.mkField "AddressLine2" [("xml", "addressLine2")], xml.VString (AddressLine2 c));
    (xml.mkField "ContactFName" [("xml", "contactFName")], xml.VString (ContactFName c));
    (xml.mkField "ContactLName" [("xml", "contactLName")], xml.VString (ContactLName c));
    (xml.mkField "PhoneExt" [("xml", "phoneExt")], xml.VString (PhoneExt c));
    (xml.mkField "FaxAreaCode" [("xml", "faxAreaCode")], xml.VString (FaxAreaCode c));
    (xml.mkField "FaxNumber" [("xml", "faxNumber")], xml.VString (FaxNumber c));
    (xml.mkField "Email" [("xml", "email")], xml.VString (Email c));
    (xml.mkField "Hazmat" [("xml", "hazmat")], xml.VString (Hazmat c));
    (xml.mkField "Freezable" [("xml", "freezable")], xml.VString (Freezable c));
    (xml.mkField "Description" [("xml", "description")], xml.VString (Description c))
  ].

End Consignee.

Record PickupRequest : Type := mkPickupRequest {
  XMLName : xml.Name;
  SoapenvAttr : string;
  PicAttr : string;
  Shipper : Shipper.t;
  Consignee : Consignee.t
}.

Definition set_SoapenvAttr (v : string) (p : PickupRequest) : PickupRequest :=
  mkPickupRequest (XMLName p) v (PicAttr p) (Shipper p) (Consignee p).

Definition set_PicAttr (v : string) (p : PickupRequest) : PickupRequest :=
  mkPickupRequest (XMLName p) (SoapenvAttr p) v (Shipper p) (Consignee p).

(** The assignment [p.Shipper.TestFlag = b]. *)
Definition set_Shipper_TestFlag (b : bool) (p : PickupRequest) : PickupRequest :=
  mkPickupRequest (XMLName p) (SoapenvAttr p) (PicAttr p)
                  (Shipper.set_TestFlag b (Shipper p)) (Consignee p).

Definition ValueOf_Name (n : xml.Name) : xml.GoValue :=
  xml.VStruct "Name" [
    (xml.mkField "Space" [], xml.VString (xml.Space n));
    (xml.mkField "Local" [], xml.VString (xml.Local n))
  ].

(** The reflected value of the request that [p] points to. *)
Definition ValueOf (p : PickupRequest) : xml.GoValue :=
  xml.VStruct "PickupRequest" [
    (xml.mkField "XMLName" [("xml", "soapenv:Envelope")], ValueOf_Name (XMLName p));
    (xml.mkField "SoapenvAttr" [("xml", "xmlns:soapenv,attr")],
     xml.VString (SoapenvAttr p));
    (xml.mkField "PicAttr" [("xml", "xmlns:pic,attr")], xml.VString (PicAttr p));
    (xml.mkField "Shipper"
                 [("xml", "soapenv:Header>soapenv:Body>pic:pickupRequest>shipper")],
     Shipper.ValueOf (Shipper p));
    (xml.mkField "Consignee"
                 [("xml", "soapenv:Header>soapenv:Body>pic:pickupRequest>consignees>Consignee")],
     Consignee.ValueOf (Consignee p))
  ].

(** ** Transport and the world outside the process

    The request that [http.Client.Post] sends is recorded; what the
    network answers is an arbitrary function of the requests sent so
    far and of the new one. *)

Module http.

Record Client : Type := mkClient {
  Timeout : time.Duration
}.

Record Request : Type := mkRequest {
  client : Client;
  url : string;
  contentType : string;
  body : string
}.

(** What comes back from [Post] followed by [ioutil.ReadAll] on the
    response body: [Post] returns an error; or it returns a response,
    and reading the body gives bytes and possibly an error. *)
Inductive Outcome : Type :=
| PostFailed (err : error)
| Replied (body : string) (readErr : option error).

End http.

(** A [map[string]interface{}]; [None] is the nil map. *)
Definition ResponseData : Type := option (list (string * xml.GoValue)).

Record World : Type := mkWorld {
  sent : list http.Request;
  closed : nat;
  logged : list ResponseData
}.

Definition new_world : World := mkWorld [] 0 [].

(** What a call of [RequestPickup] leaves behind: the request object
    the receiver points to, the two results, and the world. *)
Record Result : Type := mkResult {
  object : PickupRequest;
  responseData : ResponseData;
  err : option error;
  world : World
}.

Section RequestPickup.

Variable FormatFloat : float -> string.
Variable network : list http.Request -> http.Request -> http.Outcome.
Variable firstStartElement : string -> error + xml.Name.
Variable decodeInto :
  reflect.Kind -> xml.Name -> string -> ResponseData -> ResponseData * option error.

(** The payload: [xml.Marshal(p)]. *)
Definition Marshal (p : PickupRequest) : error + string :=
  xml.Marshal FormatFloat (ValueOf p).

(** [func (p *PickupRequest) RequestPickup() (responseData map[string]interface{}, err error)],
    run with the package variables [g] in the world [w]. *)
Definition RequestPickup (g : Globals) (w : World) (p : PickupRequest) : Result :=
  (* convert the pickup request to an xml *)
  match Marshal p with
  | inl err =>
    mkResult p None
             (Some (errors_Wrap err "odfl.RequestPickup - could not marshal xml")) w
  | inr xmlBytes =>
    (* add xml attributes *)
    let p := set_SoapenvAttr soapenv p in
    let p := set_PicAttr pic p in
    (* set test mode *)
    let p := set_Shipper_TestFlag (testMode g) p in
    (* make the call *)
    let httpClient := http.mkClient (timeout g) in
    let req := http.mkRequest httpClient odURL "text/xml" xmlBytes in
    let w1 := mkWorld (sent w ++ [req]) (closed w) (logged w) in
    match network (sent w) req with
    | http.PostFailed err =>
      mkResult p None
               (Some (errors_Wrap err "odfl.RequestPickup - could not make post request"))
               w1
    | http.Replied body readErr =>
      (* the deferred res.Body.Close() runs on every return from here on *)
      let w2 := mkWorld (sent w1) (S (closed w1)) (logged w1) in
      match readErr with
      | Some err =>
        mkResult p None
                 (Some (errors_Wrap err "odfl.RequestPickup - could not read response 1"))
                 w2
      | None =>
        match xml.Unmarshal_map ResponseData firstStartElement decodeInto body None with
        | (responseData, Some err) =>
          mkResult p responseData
                   (Some (errors_Wrap err "odfl.RequestPickup - could not read response 2"))
                   w2
        | (responseData, None) =>
          (* log.Println(responseData) *)
          mkResult p responseData None
                   (mkWorld (sent w2) (closed w2) (logged w2 ++ [responseData]))
        end
      end
    end
  end.

End RequestPickup.

(** ** The error taxonomy

    Each failure is wrapped at the step that met it; the wrap message
    names the step. *)

Definition wrapped_with (msg : string) (e : option error) : bool :=
  match e with
  | Some (errors_Wrap _ m) => String.eqb m msg
  | _ => false
  end.

Definition SerializationError : option error -> bool :=
  wrapped_with "odfl.RequestPickup - could not marshal xml".
Definition TransmissionError : option error -> bool :=
  wrapped_with "odfl.RequestPickup - could not make post request".
Definition ReadError : option error -> bool :=
  wrapped_with "odfl.RequestPickup - could not read response 1".
Definition DecodeError : option error -> bool :=
  wrapped_with "odfl.RequestPickup - could not read response 2".

(** ** Reading a payload back

    A structural reader for the documents the encoder writes: start
    tags with quoted attributes, end tags and text.  It keeps text and
    attribute values as they stand in the bytes (entities are not
    decoded) and refuses input whose tags do not nest. *)

Module Document.

#[warnings="-register-all"]
Inductive Node : Type :=
| Element (name : string) (attrs : list (string * string)) (children : list Node)
| Text (data : string).

Inductive Lexeme : Type :=
| LStart (name : string) (attrs : list (string * string))
| LEnd (name : string)
| LText (data : string).

(** The longest prefix of [s] with no character in [stop], and the rest. *)
Fixpoint span (stop : ascii -> bool) (s : string) : string * string :=
  match s with
  | EmptyString => (EmptyString, EmptyString)
  | String c t =>
    if stop c then (EmptyString, s)
    else let '(a, b) := span stop t in (String c a, b)
  end.

Definition lt_sign : ascii := ascii_of_nat 60.
Definition gt_sign : ascii := ascii_of_nat 62.
Definition slash : ascii := ascii_of_nat 47.
Definition space : ascii := ascii_of_nat 32.
Definition equals : ascii := ascii_of_nat 61.
Definition quote : ascii := ascii_of_nat 34.

(** The attributes of a start tag, from after its name to after its
    closing [>]. *)
Fixpoint lex_attrs (fuel : nat) (s : string)
  : option (list (string * string) * string) :=
  match fuel with
  | O => None
  | S fuel' =>
    match s with
    | EmptyString => None
    | String c rest =>
      if Ascii.eqb c gt_sign then Some ([], rest)
      else if Ascii.eqb c space then
        let '(k, r1) := span (Ascii.eqb equals) rest in
        match r1 with
        | String _ (String q r2) =>
          if Ascii.eqb q quote then
            let '(v, r3) := span (Ascii.eqb quote) r2 in
            match r3 with
            | String _ r4 =>
              match lex_attrs fuel' r4 with
              | Some (more, r5) => Some ((k, v) :: more, r5)
              | None => None
              end
            | EmptyString => None
            end
          else None
        | _ => None
        end
      else None
    end
  end.

Fixpoint lex (fuel : nat) (s : string) : option (list Lexeme) :=
  match s with
  | EmptyString => Some []
  | String c rest =>
    match fuel with
    | O => None
    | S fuel' =>
      if Ascii.eqb c lt_sign then
        match rest with
        | EmptyString => None
        | String c' r =>
          if Ascii.eqb c' slash then
            let '(n, r1) := span (Ascii.eqb gt_sign) r in
            match n, r1 with
            | String _ _, String _ r2 =>
              match lex fuel' r2 with
              | Some more => Some (LEnd n :: more)
              | None => None
              end
            | _, _ => None
            end
          else
            let '(n, r1) :=
              span (fun x => Ascii.eqb x space || Ascii.eqb x gt_sign) rest in
            match n, lex_attrs (String.length r1) r1 with
            | String _ _, Some (attrs, r2) =>
              match lex fuel' r2 with
              | Some more => Some (LStart n attrs :: more)
              | None => None
              end
            | _, _ => None
            end
        end
      else
        let '(t, r) := span (Ascii.eqb lt_sign) s in
        match lex fuel' r with
        | Some more => Some (LText t :: more)
        | None => None
        end
    end
  end.

(** An element whose end tag has not been read yet; its children so
    far are kept last first. *)
Record Frame : Type := mkFrame {
  fname : string;
  fattrs : list (string * string);
  fkids : list Node
}.

Definition add_child (n : Node) (stack : list Frame) (top : list Node)
  : list Frame * list Node :=
  match stack with
  | f :: below => (mkFrame (fname f) (fattrs f) (n :: fkids f) :: below, top)
  | [] => ([], n :: top)
  end.

Fixpoint build (ls : list Lexeme) (stack : list Frame) (top : list Node)
  : option (list Node) :=
  match ls with
  | [] => match stack with [] => Some (rev top) | _ :: _ => None end
  | LStart n a :: rest => build rest (mkFrame n a [] :: stack) top
  | LText t :: rest =>
    let '(stack', top') := add_child (Text t) stack top in
    build rest stack' top'
  | LEnd n :: rest =>
    match stack with
    | f :: below =>
      if String.eqb (fname f) n then
        let '(stack', top') :=
          add_child (Element n (fattrs f) (rev (fkids f))) below top in
        build rest stack' top'
      else None
    | [] => None
    end
  end.

(** The document's root element, when the bytes are one element. *)
Definition parse (s : string) : option Node :=
  match lex (String.length s) s with
  | Some ls =>
    match build ls [] [] with
    | Some [Element n a kids] => Some (Element n a kids)
    | _ => None
    end
  | None => None
  end.

Definition name (n : Node) : string :=
  match n with Element nm _ _ => nm | Text _ => "" end.

Definition children (n : Node) : list Node :=
  match n with Element _ _ kids => kids | Text _ => [] end.

Definition attributes (n : Node) : list (string * string) :=
  match n with Element _ a _ => a | Text _ => [] end.

(** The value of the attribute named [k], when the element has one. *)
Definition attr (k : string) (n : Node) : option string :=
  match find (fun kv => String.eqb (fst kv) k) (attributes n) with
  | Some (_, v) => Some v
  | None => None
  end.

(** The text directly inside an element. *)
Definition text (n : Node) : string :=
  String.concat "" (flat_map (fun k => match k with Text d => [d] | _ => [] end)
                             (children n)).

Definition child (nm : string) (n : Node) : option Node :=
  find (fun k => String.eqb (name k) nm) (children n).

(** The element reached from [n] through children of the given names. *)
Fixpoint descend (path : list string) (n : Node) : option Node :=
  match path with
  | [] => Some n
  | nm :: rest =>
    match child nm n with
    | Some k => descend rest k
    | None => None
    end
  end.

(** The chains of element names from [n] down to each element
    named [target]. *)
Fixpoint paths_to (target : string) (n : Node) : list (list string) :=
  match n with
  | Text _ => []
  | Element nm _ kids =>
    ((if String.eqb nm target then [[nm]] else [])
       ++ map (cons nm) (flat_map (paths_to target) kids))%list
  end.

(** The names of the element children, in document order. *)
Definition child_names (n : Node) : list string :=
  flat_map (fun k => match k with Element nm _ _ => [nm] | Text _ => [] end)
           (children n).

End Document.

(** ** The envelope on the wire

    What [xml.Marshal] makes of a request, written out: the element
    names in the order they are emitted, each with the text it
    carries.  [Marshal_tokens] below proves that the encoder, run on the
    struct tags of the source, produces exactly these tokens. *)

Section Wire.

Variable FormatFloat : float -> string.

(** The children of [shipper]: wire name and text, in order. *)
Definition shipper_wire (s : Shipper.t) : list (string * string) :=
  [
    ("odfl4meUser", Shipper.ODFL4MeUser s);
    ("odfl4mePassword", Shipper.ODFL4MePassword s);
    ("companyName", Shipper.CompanyName s);
    ("addressLine1", Shipper.AddressLine1 s);
    ("city", Shipper.City s);
    ("stateProvince", Shipper.StateProvince s);
    ("postalCode", Shipper.PostalCode s);
    ("Country", Shipper.Country s);
    ("contactFName", Shipper.ContactFName s);
    ("contactLName", Shipper.ContactLName s);
    ("phoneAreaCode", Shipper.PhoneAreaCode s);
    ("phoneNumber", Shipper.PhoneNumber s);
    ("testFlag", strconv.FormatBool (Shipper.TestFlag s));
    ("pickupDate", Shipper.PickupDate s);
    ("pickupTime", Shipper.PickupTime s);
    ("pickupTimeAMPM", Shipper.PickupTimeAMPM s);
    ("whoEntered", Shipper.WhoEntered s);
    ("whoPhoneNumber", Shipper.WhoPhoneNumber s);
    ("accountNumber", Shipper.AccountNumber s);
    ("attention", Shipper.Attention s);
    ("addressLine2", Shipper.AddressLine2 s);
    ("phoneExt", Shipper.PhoneExt s);
    ("faxAreaCode", Shipper.FaxAreaCode s);
    ("faxNumber", Shipper.FaxNumber s);
    ("email", Shipper.Email s);
    ("comments", Shipper.Comments s);
    ("dockCloseTime", Shipper.DockCloseTime s);
    ("dockCloseAMPM", Shipper.DockCloseAMPM s)
  ].

(** The children of [Consignee]. *)
Definition consignee_wire (c : Consignee.t) : list (string * string) :=
  [
    ("customerShipmentId", Consignee.CustomerShipmentID c);
    ("city", Consignee.City c);
    ("stateProvince", Consignee.StateProvince c);
    ("postalCode", Consignee.PostalCode c);
    ("country", Consignee.Country c);
    ("phoneAreaCode", Consignee.PhoneAreaCode c);
    ("phoneNumber", Consignee.PhoneNumber c);
    ("handlingUnits", strconv.FormatUint (Consignee.HandlingUnits c));
    ("pieces", strconv.FormatUint (Consignee.Pieces c));
    ("unitType", Consignee.UnitType c);
    ("weight", FormatFloat (Consignee.Weight c));
    ("paymentMethod", Consignee.PaymentMethod c);
    ("companyName", Consignee.CompanyName c);
    ("addressLine1", Consignee.AddressLine1 c);
    ("addressLine2", Consignee.AddressLine2 c);
    ("contactFName", Consignee.ContactFName c);
    ("contactLName", Consignee.ContactLName c);
    ("phoneExt", Consignee.PhoneExt c);
    ("faxAreaCode", Consignee.FaxAreaCode c);
    ("faxNumber", Consignee.FaxNumber c);
    ("email", Consignee.Email c);
    ("hazmat", Consignee.Hazmat c);
    ("freezable", Consignee.Freezable c);
    ("description", Consignee.Description c)
  ].

Definition open (nm : string) : xml.Token := xml.StartElement (xml.mkName "" nm) [].
Definition close (nm : string) : xml.Token := xml.EndElement (xml.mkName "" nm).

(** A field: start tag, text, end tag. *)
Definition leaf (kv : string * string) : list xml.Token :=
  [open (fst kv); xml.CharData (snd kv); close (fst kv)].

Definition envelope_tokens (p : PickupRequest) : list xml.Token :=
  (xml.StartElement (xml.mkName "" "soapenv:Envelope")
     [xml.mkAttr (xml.mkName "" "xmlns:soapenv") (SoapenvAttr p);
      xml.mkAttr (xml.mkName "" "xmlns:pic") (PicAttr p)]
   :: open "soapenv:Header" :: open "soapenv:Body" :: open "pic:pickupRequest"
   :: open "shipper" :: flat_map leaf (shipper_wire (Shipper p))
   ++ close "shipper"
   :: open "consignees" :: open "Consignee"
   :: flat_map leaf (consignee_wire (Consignee p))
   ++ [close "Consignee"; close "consignees"; close "pic:pickupRequest";
       close "soapenv:Body"; close "soapenv:Header"; close "soapenv:Envelope"])%list.

(** The same document as a tree, with the text as the printer escapes
    it; a field with no text is an element with no child. *)
Definition text_nodes (escaped : string) : list Document.Node :=
  match escaped with
  | EmptyString => []
  | String _ _ => [Document.Text escaped]
  end.

Definition leaf_node (kv : string * string) : Document.Node :=
  Document.Element (fst kv) [] (text_nodes (xml.EscapeString (snd kv))).

Definition envelope_tree (p : PickupRequest) : Document.Node :=
  Document.Element "soapenv:Envelope"
    [("xmlns:soapenv", xml.EscapeString (SoapenvAttr p));
     ("xmlns:pic", xml.EscapeString (PicAttr p))]
    [Document.Element "soapenv:Header" []
      [Document.Element "soapenv:Body" []
        [Document.Element "pic:pickupRequest" []
          [Document.Element "shipper" []
             (map leaf_node (shipper_wire (Shipper p)));
           Document.Element "consignees" []
             [Document.Element "Consignee" []
                (map leaf_node (consignee_wire (Consignee p)))]]]]].

End Wire.

(** ** Vocabulary of the properties

    Tests on strings and tokens that the statements below use, the
    observations made on a call, and the inputs of the examples. *)

(** Every character of [s] passes the test [P]. *)
Fixpoint all_chars (P : ascii -> bool) (s : string) : bool :=
  match s with
  | EmptyString => true
  | String c t => P c && all_chars P t
  end.

(** [s] is empty or starts with a character at which [stop] holds. *)
Definition stops_at (stop : ascii -> bool) (s : string) : Prop :=
  match s with
  | EmptyString => True
  | String c _ => stop c = true
  end.

(** Neither [<] nor the double quote: a character that ends neither
    text nor an attribute value. *)
Definition text_safe (c : ascii) : bool :=
  negb (Ascii.eqb Document.lt_sign c) && negb (Ascii.eqb Document.quote c).

(** An element name the reader takes back whole: not empty, not
    starting with [/], without blank or [>]. *)
Definition plain_name (nm : string) : bool :=
  match nm with
  | EmptyString => false
  | String c _ =>
    negb (Ascii.eqb c Document.slash)
    && all_chars (fun x => negb (Ascii.eqb x Document.space || Ascii.eqb x Document.gt_sign)
                           && negb (Ascii.eqb Document.gt_sign x)) nm
  end.

(** An attribute the printer writes and the reader takes back: in no
    namespace, its name not empty and without [=]. *)
Definition plain_attr (a : xml.Attr) : bool :=
  String.eqb (xml.Space (xml.AttrName a)) ""
  && negb (String.eqb (xml.Local (xml.AttrName a)) "")
  && all_chars (fun x => negb (Ascii.eqb Document.equals x)) (xml.Local (xml.AttrName a)).

(** Tokens with plain names, in no namespace, and with no two pieces
    of text next to each other. *)
Fixpoint lexable (ts : list xml.Token) : bool :=
  match ts with
  | [] => true
  | xml.StartElement nm attrs :: rest =>
    String.eqb (xml.Space nm) "" && plain_name (xml.Local nm)
    && forallb plain_attr attrs && lexable rest
  | xml.EndElement nm :: rest => plain_name (xml.Local nm) && lexable rest
  | xml.CharData _ :: rest =>
    match rest with xml.CharData _ :: _ => false | _ => true end && lexable rest
  end.

(** What the reader makes of a printed attribute and of a printed
    token: the values and the text are the escaped ones, and text that
    is empty leaves no trace. *)
Definition attr_read (a : xml.Attr) : string * string :=
  (xml.Local (xml.AttrName a), xml.EscapeString (xml.Value a)).

Definition lexemes_of (t : xml.Token) : list Document.Lexeme :=
  match t with
  | xml.StartElement nm attrs => [Document.LStart (xml.Local nm) (map attr_read attrs)]
  | xml.EndElement nm => [Document.LEnd (xml.Local nm)]
  | xml.CharData d =>
    match xml.EscapeString d with
    | EmptyString => []
    | String _ _ as e => [Document.LText e]
    end
  end.

(** ** Observations on a call *)

Section Observations.

Variable FormatFloat : float -> string.

(** The bytes [xml.Marshal] returns for [p]. *)
Definition payload (p : PickupRequest) : string :=
  match Marshal FormatFloat p with
  | inr xmlBytes => xmlBytes
  | inl _ => ""
  end.

(** The request that [RequestPickup] posts for [p] under the package
    variables [g]. *)
Definition request_for (g : Globals) (p : PickupRequest) : http.Request :=
  http.mkRequest (http.mkClient (timeout g)) odURL "text/xml" (payload p).

End Observations.

(** The timeouts of the HTTP clients that made the requests. *)
Definition timeouts_used (w : World) : list time.Duration :=
  map (fun r => http.Timeout (http.client r)) (sent w).

Definition shipper_path : list string :=
  ["soapenv:Header"; "soapenv:Body"; "pic:pickupRequest"; "shipper"].

(** The text of the shipper's child element [tag] in a payload. *)
Definition payload_shipper_field (tag : string) (xmlBytes : string) : option string :=
  match Document.parse xmlBytes with
  | Some root =>
    match Document.descend (shipper_path ++ [tag]) root with
    | Some n => Some (Document.text n)
    | None => None
    end
  | None => None
  end.

Definition payload_TestFlag : string -> option string :=
  payload_shipper_field "testFlag".

(** The root's attribute [k] in a payload. *)
Definition payload_root_attr (k : string) (xmlBytes : string) : option string :=
  match Document.parse xmlBytes with
  | Some root => Document.attr k root
  | None => None
  end.

(** The chains of element names from the root to the pickup request
    elements of a payload. *)
Definition payload_pickupRequest_paths (xmlBytes : string) : option (list (list string)) :=
  match Document.parse xmlBytes with
  | Some root => Some (Document.paths_to "pic:pickupRequest" root)
  | None => None
  end.

(** ** Example inputs *)

(** A request as a caller builds it: the namespace attributes are left
    empty, and the caller has set the test flag to [flag]. *)
Definition example_shipper (flag : bool) : Shipper.t :=
  Shipper.mk "user" "secret" "Acme Tools" "1 Main St" "Richmond" "VA" "23219"
             "USA" "Ann" "Lee" "804" "5550100" flag "20240102" "093000" "AM"
             "Ann Lee" "8045550100" "" "" "" "" "" "" "" "" "" "".

Definition example_consignee : Consignee.t :=
  Consignee.mk "SHIP-1" "Durham" "NC" "27701" "USA" "919" "5550199" 1 1 "SKID"
               150.5%float "" "" "" "" "" "" "" "" "" "" "" "" "".

Definition example_request (flag : bool) : PickupRequest :=
  mkPickupRequest (xml.mkName "" "") "" "" (example_shipper flag) example_consignee.

(** A reply of a mock endpoint: one element per key. *)
Definition mock_reply : string :=
  "<pickupResponse><confirmationNumber>TEST123</confirmationNumber></pickupResponse>".

(** A reply cut off in the middle of a tag. *)
Definition truncated_reply : string := "<pickupResponse><confirmationNum".

(** An environment for the examples. *)
Definition example_FormatFloat : float -> string := fun _ => "150.5".
Definition network_down : list http.Request -> http.Request -> http.Outcome :=
  fun _ _ => http.PostFailed (errors_New "dial tcp: i/o timeout").
Definition network_replies (reply : string)
  : list http.Request -> http.Request -> http.Outcome :=
  fun _ _ => http.Replied reply None.
Definition example_firstStartElement : string -> error + xml.Name :=
  fun data =>
    if String.eqb data truncated_reply
    then inl (errors_New "XML syntax error on line 1: unexpected EOF")
    else inr (xml.mkName "" "pickupResponse").
Definition example_decodeInto
  : reflect.Kind -> xml.Name -> string -> ResponseData -> ResponseData * option error :=
  fun _ _ _ m => (m, None).

(** ** Further observations *)

Definition consignee_path : list string :=
  ["soapenv:Header"; "soapenv:Body"; "pic:pickupRequest"; "consignees"; "Consignee"].

(** The text of the consignee's child element [tag] in a payload. *)
Definition payload_consignee_field (tag : string) (xmlBytes : string) : option string :=
  match Document.parse xmlBytes with
  | Some root =>
    match Document.descend (consignee_path ++ [tag]) root with
    | Some n => Some (Document.text n)
    | None => None
    end
  | None => None
  end.

(** The names of the element children of the element reached from the
    root through [path]. *)
Definition payload_child_names (path : list string) (xmlBytes : string)
  : option (list string) :=
  match Document.parse xmlBytes with
  | Some root =>
    match Document.descend path root with
    | Some n => Some (Document.child_names n)
    | None => None
    end
  | None => None
  end.

(** The root's name and the names of its attributes, in order. *)
Definition payload_root (xmlBytes : string) : option (string * list string) :=
  match Document.parse xmlBytes with
  | Some root => Some (Document.name root, map fst (Document.attributes root))
  | None => None
  end.

(** Printable ASCII other than the five characters that XML escapes. *)
Definition plain_char (c : ascii) : bool :=
  let n := N_of_ascii c in
  ((32 <=? n) && (n <=? 126)
   && negb (n =? 34) && negb (n =? 38) && negb (n =? 39)
   && negb (n =? 60) && negb (n =? 62))%N.

Definition plain_text (s : string) : bool := all_chars plain_char s.

(** Reading a decimal number back. *)
Definition ParseUint (s : string) : option N :=
  option_map N.of_uint (NilZero.uint_of_string s).

(** The argument of the last [SetTimeout] among the calls. *)
Fixpoint last_SetTimeout (ops : list ModeOp) : option time.Duration :=
  match ops with
  | [] => None
  | op :: rest =>
    match last_SetTimeout rest with
    | Some v => Some v
    | None =>
      match op with
      | CallSetTimeout v => Some v
      | CallSetProductionMode _ => None
      end
    end
  end.

Section Calls.

Variable FormatFloat : float -> string.
Variable network : list http.Request -> http.Request -> http.Outcome.
Variable firstStartElement : string -> error + xml.Name.
Variable decodeInto :
  reflect.Kind -> xml.Name -> string -> ResponseData -> ResponseData * option error.

(** [RequestPickup] called on one request after the other, whatever
    each call returns; the world after the last call. *)
Fixpoint RequestPickup_each (g : Globals) (w : World) (ps : list PickupRequest) : World :=
  match ps with
  | [] => w
  | p :: rest =>
    RequestPickup_each
      g (world (RequestPickup FormatFloat network firstStartElement decodeInto g w p))
      rest
  end.

End Calls.

(** A reply whose body cannot be read to the end. *)
Definition network_cut : list http.Request -> http.Request -> http.Outcome :=
  fun _ _ => http.Replied "<pickupRes" (Some (errors_New "unexpected EOF")).

(** A reply whose headers arrive in time, and whose body is cut short
    by the client's timeout while it is read. *)
Definition network_read_timeout : list http.Request -> http.Request -> http.Outcome :=
  fun _ _ =>
    http.Replied
      ""
      (Some (errors_New
               "net/http: request canceled (Client.Timeout exceeded while reading body)")).

(** * Properties *)

(** ** The encoder on a request *)

Section MarshalFacts.

Variable FormatFloat : float -> string.

Lemma Marshal_tokens (p : PickupRequest) :
  xml.marshalValue FormatFloat (ValueOf p) None
  = inr (envelope_tokens FormatFloat p).
Proof.
  destruct p as [nm sa pa s c]; destruct s; destruct c.
  vm_compute. reflexivity.
Qed.

End MarshalFacts.

(** ** Strings and characters *)

Section StringFacts.

Lemma append_assoc (a b c : string) : (a ++ b) ++ c = a ++ (b ++ c).
Proof.
  induction a as [|x a IH]; simpl; [reflexivity | now rewrite IH].
Qed.

Lemma append_nil_r (a : string) : a ++ "" = a.
Proof.
  induction a as [|x a IH]; simpl; [reflexivity | now rewrite IH].
Qed.

Lemma length_append (a b : string) :
  String.length (a ++ b) = (String.length a + String.length b)%nat.
Proof.
  induction a as [|x a IH]; simpl; [reflexivity | now rewrite IH].
Qed.

Lemma all_chars_append (P : ascii -> bool) (a b : string) :
  all_chars P (a ++ b) = all_chars P a && all_chars P b.
Proof.
  induction a as [|x a IH]; simpl; [reflexivity|].
  now rewrite IH, andb_assoc.
Qed.

Lemma span_append (stop : ascii -> bool) (a rest : string) :
  all_chars (fun c => negb (stop c)) a = true ->
  stops_at stop rest ->
  Document.span stop (a ++ rest) = (a, rest).
Proof.
  induction a as [|x a IH]; simpl; intros Ha Hr.
  - destruct rest as [|c r]; simpl in *; [reflexivity | now rewrite Hr].
  - apply andb_true_iff in Ha as [Hx Ha].
    apply negb_true_iff in Hx. rewrite Hx, (IH Ha Hr). reflexivity.
Qed.

End StringFacts.

(** ** Escaped text *)

Section EscapeFacts.

Lemma text_safe_code (c : ascii) :
  N_of_ascii c <> 60%N -> N_of_ascii c <> 34%N -> text_safe c = true.
Proof.
  intros H60 H34. unfold text_safe.
  apply andb_true_iff; split; apply negb_true_iff, Ascii.eqb_neq;
    intros <-; [apply H60 | apply H34]; reflexivity.
Qed.

Lemma text_safe_high (c : ascii) :
  (0x80 <= N_of_ascii c)%N -> text_safe c = true.
Proof.
  intros H. apply text_safe_code; lia.
Qed.

Lemma escape_of_None (r : N) (w : nat) :
  xml.escape_of r w = None ->
  r <> 34%N /\ r <> 60%N /\ ~ (r = utf8.RuneError /\ w = 1%nat).
Proof.
  unfold xml.escape_of. intros H.
  repeat match type of H with
         | (if ?b then _ else _) = None => destruct b eqn:?; [discriminate|]
         end.
  repeat match goal with
         | E : (_ =? _)%N = false |- _ => apply N.eqb_neq in E
         end.
  repeat split; try assumption.
  intros [-> ->].
  match goal with
  | E : (_ || _) = false |- _ => apply orb_false_iff in E as [_ E]; discriminate E
  end.
Qed.

(** The bytes that [EscapeString] copies are safe. *)
Lemma copied_rune_safe (s : string) (r : N) (w : nat) :
  utf8.DecodeRuneInString s = (r, w) ->
  xml.escape_of r w = None ->
  all_chars text_safe (strings.take w s) = true.
Proof.
  intros Hd He. apply escape_of_None in He as (H34 & H60 & Herr).
  destruct s as [|c0 t0]; simpl in Hd.
  - injection Hd as <- <-. reflexivity.
  - revert Hd.
    repeat match goal with
           | |- context [N.ltb ?a ?b] => destruct (N.ltb_spec a b)
           | |- context [N.leb ?a ?b] => destruct (N.leb_spec a b)
           | |- context [N.eqb ?a ?b] => destruct (N.eqb_spec a b)
           | |- context [match ?t with EmptyString => _ | String _ _ => _ end] =>
             destruct t
           end; simpl;
      intros Hd; injection Hd as <- <-;
      try (exfalso; apply Herr; split; reflexivity);
      cbn [strings.take all_chars];
      repeat match goal with
             | |- (_ && _) = true => apply andb_true_iff; split
             end;
      try reflexivity;
      try (apply text_safe_high; lia);
      try (apply text_safe_code; assumption).
Qed.

Lemma escape_runes_safe (fuel : nat) (s : string) :
  all_chars text_safe (xml.escape_runes fuel s) = true.
Proof.
  revert s. induction fuel as [|fuel IH]; intros s; simpl; [reflexivity|].
  destruct s as [|c t]; [reflexivity|].
  destruct (utf8.DecodeRuneInString (String c t)) as [r w] eqn:Hd.
  rewrite all_chars_append, IH, andb_true_r.
  destruct (xml.escape_of r w) as [esc|] eqn:He.
  - unfold xml.escape_of in He.
    repeat match type of He with
           | (if ?b then _ else _) = Some _ => destruct b
           end;
      try discriminate He; injection He as <-; reflexivity.
  - eapply copied_rune_safe; eassumption.
Qed.

Lemma EscapeString_safe (s : string) :
  all_chars text_safe (xml.EscapeString s) = true.
Proof. apply escape_runes_safe. Qed.

End EscapeFacts.

(** ** Reading back what the printer writes

    The printer's bytes, read by [Document.lex], give the tokens back:
    start tags with their attributes, end tags, and the escaped text
    where there is some.  It holds for tokens whose names are plain (not
    empty, without blank, [>] or [=], not starting with [/], and in no
    namespace) and in which no two pieces of text are adjacent. *)

Section ReadBack.

Lemma concat_cons (x : string) (l : list string) :
  String.concat "" (x :: l) = x ++ String.concat "" l.
Proof.
  destruct l; simpl; [now rewrite append_nil_r | reflexivity].
Qed.

Lemma writeAttr_plain (a : xml.Attr) :
  plain_attr a = true ->
  xml.writeAttr a
  = String Document.space
           (xml.Local (xml.AttrName a)
            ++ String Document.equals
                 (String Document.quote
                    (xml.EscapeString (xml.Value a)
                     ++ String Document.quote EmptyString))).
Proof.
  unfold plain_attr, xml.writeAttr. intros H.
  apply andb_true_iff in H as [H _]. apply andb_true_iff in H as [_ H].
  apply negb_true_iff in H. rewrite H. reflexivity.
Qed.

Lemma all_chars_weaken (P Q : ascii -> bool) (s : string) :
  (forall c, P c = true -> Q c = true) ->
  all_chars P s = true -> all_chars Q s = true.
Proof.
  intros HPQ. induction s as [|c t IH]; simpl; [reflexivity|].
  intros H. apply andb_true_iff in H as [Hc Ht].
  now rewrite (HPQ _ Hc), (IH Ht).
Qed.

Lemma escaped_no_quote (s : string) :
  all_chars (fun c => negb (Ascii.eqb Document.quote c)) (xml.EscapeString s) = true.
Proof.
  eapply all_chars_weaken; [|apply EscapeString_safe].
  intros c H. unfold text_safe in H. now apply andb_true_iff in H as [_ H].
Qed.

Lemma escaped_no_lt (s : string) :
  all_chars (fun c => negb (Ascii.eqb Document.lt_sign c)) (xml.EscapeString s) = true.
Proof.
  eapply all_chars_weaken; [|apply EscapeString_safe].
  intros c H. unfold text_safe in H. now apply andb_true_iff in H as [H _].
Qed.

Lemma lex_attrs_print (attrs : list xml.Attr) (more : string) :
  forallb plain_attr attrs = true ->
  forall fuel, (List.length attrs < fuel)%nat ->
  Document.lex_attrs fuel
    (String.concat "" (map xml.writeAttr attrs) ++ String Document.gt_sign more)
  = Some (map attr_read attrs, more).
Proof.
  induction attrs as [|a attrs IH]; intros Hok fuel Hfuel;
    (destruct fuel as [|fuel]; [inversion Hfuel|]).
  - reflexivity.
  - cbn [forallb] in Hok. apply andb_true_iff in Hok as [Ha Hok].
    cbn [map]. rewrite concat_cons, (writeAttr_plain a Ha).
    cbn [append Document.lex_attrs]. 
    change (Ascii.eqb Document.space Document.gt_sign) with false.
    change (Ascii.eqb Document.space Document.space) with true.
    cbv iota.
    repeat (rewrite !append_assoc; cbn [append]).
    rewrite span_append; cycle 1.
    { unfold plain_attr in Ha. now apply andb_true_iff in Ha as [_ Ha]. }
    { reflexivity. }
    change (Ascii.eqb Document.quote Document.quote) with true. cbv iota.
    rewrite span_append; cycle 1.
    { apply escaped_no_quote. }
    { reflexivity. }
    rewrite IH; [reflexivity | assumption | ].
    cbn [List.length] in Hfuel. lia.
Qed.

(** The printer's output for tokens that do not start with text starts
    with [<], when it is not empty. *)
Lemma print_starts_with_lt (ts : list xml.Token) (tags : list xml.Name) (out : string) :
  xml.print tags ts = inr out ->
  match ts with xml.CharData _ :: _ => False | _ => True end ->
  stops_at (Ascii.eqb Document.lt_sign) out.
Proof.
  destruct ts as [|[nm attrs|nm|d] rest]; cbn [xml.print]; intros H Hhead.
  - destruct tags; [injection H as <-; exact I | discriminate].
  - unfold xml.writeStart in H.
    repeat match type of H with
           | context [if ?b then _ else _] => destruct b
           end; try discriminate;
      destruct (xml.print (nm :: tags) rest); try discriminate;
      injection H as <-; reflexivity.
  - unfold xml.writeEnd in H.
    destruct (String.eqb (xml.Local nm) ""); [discriminate|].
    destruct tags as [|top below]; [discriminate|].
    destruct (xml.Name_eqb top nm); [|discriminate].
    destruct (xml.print below rest); [discriminate|].
    injection H as <-. reflexivity.
  - contradiction.
Qed.

End ReadBack.

Section Lexing.

Lemma plain_name_span (nm rest : string) :
  plain_name nm = true ->
  stops_at (fun x => Ascii.eqb x Document.space || Ascii.eqb x Document.gt_sign) rest ->
  Document.span (fun x => Ascii.eqb x Document.space || Ascii.eqb x Document.gt_sign)
                (nm ++ rest) = (nm, rest).
Proof.
  intros Hn Hr. apply span_append; [|assumption].
  destruct nm as [|c t]; [discriminate|].
  unfold plain_name in Hn. apply andb_true_iff in Hn as [_ Hn].
  eapply all_chars_weaken; [|exact Hn].
  intros x Hx. now apply andb_true_iff in Hx as [Hx _].
Qed.

Lemma plain_name_span_gt (nm rest : string) :
  plain_name nm = true ->
  Document.span (Ascii.eqb Document.gt_sign) (nm ++ String Document.gt_sign rest)
  = (nm, String Document.gt_sign rest).
Proof.
  intros Hn. apply span_append; [|reflexivity].
  destruct nm as [|c t]; [discriminate|].
  unfold plain_name in Hn. apply andb_true_iff in Hn as [_ Hn].
  eapply all_chars_weaken; [|exact Hn].
  intros x Hx. now apply andb_true_iff in Hx as [_ Hx].
Qed.

Lemma attrs_text_length (attrs : list xml.Attr) (more : string) :
  forallb plain_attr attrs = true ->
  (List.length attrs
   < String.length (String.concat "" (map xml.writeAttr attrs)
                    ++ String Document.gt_sign more))%nat.
Proof.
  induction attrs as [|a attrs IH]; cbn [forallb map List.length]; intros Hok.
  - cbn. lia.
  - apply andb_true_iff in Hok as [Ha Hok].
    rewrite concat_cons, (writeAttr_plain a Ha), append_assoc.
    specialize (IH Hok). cbn [append String.length].
    rewrite !length_append. rewrite length_append in IH.
    cbn [String.length] in *. lia.
Qed.

Lemma attrs_text_stops (attrs : list xml.Attr) (more : string) :
  forallb plain_attr attrs = true ->
  stops_at (fun x => Ascii.eqb x Document.space || Ascii.eqb x Document.gt_sign)
           (String.concat "" (map xml.writeAttr attrs) ++ String Document.gt_sign more).
Proof.
  destruct attrs as [|a attrs]; cbn [forallb map]; intros Hok; [reflexivity|].
  apply andb_true_iff in Hok as [Ha _].
  rewrite concat_cons, (writeAttr_plain a Ha). reflexivity.
Qed.

Lemma lex_start (fuel : nat) (nm r1 : string) :
  plain_name nm = true ->
  stops_at (fun x => Ascii.eqb x Document.space || Ascii.eqb x Document.gt_sign) r1 ->
  Document.lex (S fuel) (String Document.lt_sign (nm ++ r1))
  = match Document.lex_attrs (String.length r1) r1 with
    | Some (attrs, r2) =>
      match Document.lex fuel r2 with
      | Some more => Some (Document.LStart nm attrs :: more)
      | None => None
      end
    | None => None
    end.
Proof.
  intros Hnm Hr1.
  pose proof (plain_name_span nm r1 Hnm Hr1) as Hspan.
  destruct nm as [|c0 nm']; [discriminate|].
  unfold plain_name in Hnm. apply andb_true_iff in Hnm as [Hslash _].
  apply negb_true_iff in Hslash.
  cbn [append] in *. cbn [Document.lex].
  rewrite Ascii.eqb_refl, Hslash, Hspan. reflexivity.
Qed.

Lemma lex_end (fuel : nat) (nm r2 : string) :
  plain_name nm = true ->
  Document.lex (S fuel)
    (String Document.lt_sign (String Document.slash (nm ++ String Document.gt_sign r2)))
  = match Document.lex fuel r2 with
    | Some more => Some (Document.LEnd nm :: more)
    | None => None
    end.
Proof.
  intros Hnm. cbn [Document.lex].
  rewrite !Ascii.eqb_refl, (plain_name_span_gt nm r2 Hnm).
  destruct nm; [discriminate | reflexivity].
Qed.

Lemma lex_text (fuel : nat) (c : ascii) (e more : string) :
  all_chars (fun x => negb (Ascii.eqb Document.lt_sign x)) (String c e) = true ->
  stops_at (Ascii.eqb Document.lt_sign) more ->
  Document.lex (S fuel) (String c e ++ more)
  = match Document.lex fuel more with
    | Some rest => Some (Document.LText (String c e) :: rest)
    | None => None
    end.
Proof.
  intros Hsafe Hmore.
  pose proof (span_append _ _ _ Hsafe Hmore) as Hspan.
  cbn [all_chars] in Hsafe. apply andb_true_iff in Hsafe as [Hc _].
  apply negb_true_iff in Hc. rewrite Ascii.eqb_sym in Hc.
  cbn [append] in *. cbn [Document.lex].
  rewrite Hc, Hspan. reflexivity.
Qed.

Theorem lex_print (ts : list xml.Token) :
  forall (tags : list xml.Name) (out : string) (fuel : nat),
  lexable ts = true ->
  xml.print tags ts = inr out ->
  (String.length out <= fuel)%nat ->
  Document.lex fuel out = Some (flat_map lexemes_of ts).
Proof.
  induction ts as [|t rest IH]; intros tags out fuel Hok Hp Hfuel.
  - cbn in Hp. destruct tags; [|discriminate]. injection Hp as <-.
    destruct fuel; reflexivity.
  - destruct t as [nm attrs|nm|d]; cbn [lexable] in Hok; cbn [xml.print] in Hp.
    + (* start tag *)
      apply andb_true_iff in Hok as [Hok Hrest].
      apply andb_true_iff in Hok as [Hok Hattrs].
      apply andb_true_iff in Hok as [Hsp Hnm].
      unfold xml.writeStart in Hp. rewrite Hsp in Hp.
      destruct (String.eqb (xml.Local nm) "") eqn:Hempty.
      { apply String.eqb_eq in Hempty. rewrite Hempty in Hnm. discriminate. }
      destruct (existsb _ attrs); [discriminate|].
      destruct (xml.print (nm :: tags) rest) as [e|more] eqn:Hmore; [discriminate|].
      injection Hp as <-.
      set (r1 := String.concat "" (map xml.writeAttr attrs)
                 ++ String Document.gt_sign more).
      match goal with
      | |- Document.lex _ ?o = _ =>
        assert (Hout : o = String Document.lt_sign (xml.Local nm ++ r1))
      end.
      { subst r1. cbv iota. repeat (rewrite !append_assoc; cbn [append]). reflexivity. }
      rewrite Hout in *. clear Hout.
      cbn [String.length] in Hfuel. rewrite length_append in Hfuel.
      destruct fuel as [|fuel]; [inversion Hfuel|].
      rewrite lex_start; [|assumption|now apply attrs_text_stops].
      subst r1.
      rewrite lex_attrs_print; [|assumption|now apply attrs_text_length].
      rewrite (IH (nm :: tags) more fuel Hrest Hmore); [reflexivity|].
      rewrite length_append in Hfuel. cbn [String.length] in Hfuel. lia.
    + (* end tag *)
      apply andb_true_iff in Hok as [Hnm Hrest].
      unfold xml.writeEnd in Hp.
      destruct (String.eqb (xml.Local nm) "") eqn:Hempty.
      { apply String.eqb_eq in Hempty. rewrite Hempty in Hnm. discriminate. }
      destruct tags as [|top below]; [discriminate|].
      destruct (xml.Name_eqb top nm); [|discriminate].
      destruct (xml.print below rest) as [e|more] eqn:Hmore; [discriminate|].
      injection Hp as <-.
      match goal with
      | |- Document.lex _ ?o = _ =>
        assert (Hout : o = String Document.lt_sign
                             (String Document.slash
                                (xml.Local nm ++ String Document.gt_sign more)))
      end.
      { repeat (rewrite !append_assoc; cbn [append]). reflexivity. }
      rewrite Hout in *. clear Hout.
      cbn [String.length] in Hfuel. rewrite length_append in Hfuel.
      cbn [String.length] in Hfuel.
      destruct fuel as [|fuel]; [inversion Hfuel|].
      rewrite lex_end by assumption.
      rewrite (IH below more fuel Hrest Hmore); [reflexivity | lia].
    + (* text *)
      apply andb_true_iff in Hok as [Hnext Hrest].
      destruct (xml.print tags rest) as [e|more] eqn:Hmore; [discriminate|].
      injection Hp as <-.
      cbn [flat_map lexemes_of].
      pose proof (escaped_no_lt d) as Hsafe.
      destruct (xml.EscapeString d) as [|c e] eqn:He.
      * cbn [append app]. eapply IH; eassumption.
      * rewrite length_append in Hfuel. cbn [String.length] in Hfuel.
        destruct fuel as [|fuel]; [inversion Hfuel|].
        rewrite lex_text; [|assumption|].
        -- rewrite (IH tags more fuel Hrest Hmore); [reflexivity | lia].
        -- eapply print_starts_with_lt; [eassumption|].
           destruct rest as [|[| |] ?]; try exact I. discriminate.
Qed.

End Lexing.

(** ** The payload read back *)

Section PayloadReadBack.

Variable FormatFloat : float -> string.

Lemma build_leaf (kv : string * string) (rest : list Document.Lexeme)
      (f : Document.Frame) (stack : list Document.Frame) (top : list Document.Node) :
  Document.build (flat_map lexemes_of (leaf kv) ++ rest) (f :: stack) top
  = Document.build rest
      (Document.mkFrame (Document.fname f) (Document.fattrs f)
                        (leaf_node kv :: Document.fkids f) :: stack) top.
Proof.
  unfold leaf, leaf_node. cbn [flat_map lexemes_of open close xml.Local map app].
  destruct (xml.EscapeString (snd kv)) as [|c e];
    cbn [app Document.build Document.add_child Document.fname Document.fattrs
         Document.fkids rev text_nodes];
    rewrite String.eqb_refl; reflexivity.
Qed.

Lemma build_leaves (kvs : list (string * string)) (rest : list Document.Lexeme) :
  forall (f : Document.Frame) (stack : list Document.Frame) (top : list Document.Node),
  Document.build (flat_map lexemes_of (flat_map leaf kvs) ++ rest) (f :: stack) top
  = Document.build rest
      (Document.mkFrame (Document.fname f) (Document.fattrs f)
                        (rev (map leaf_node kvs) ++ Document.fkids f) :: stack) top.
Proof.
  induction kvs as [|kv kvs IH]; intros f stack top.
  - destruct f; reflexivity.
  - cbn [flat_map map rev]. rewrite flat_map_app, <- !app_assoc.
    rewrite build_leaf, IH. reflexivity.
Qed.

Lemma envelope_lexable (p : PickupRequest) :
  lexable (envelope_tokens FormatFloat p) = true.
Proof.
  destruct p as [nm sa pa s c]; destruct s; destruct c. vm_compute. reflexivity.
Qed.

Lemma envelope_build (p : PickupRequest) :
  Document.build (flat_map lexemes_of (envelope_tokens FormatFloat p)) [] []
  = Some [envelope_tree FormatFloat p].
Proof.
  unfold envelope_tokens, envelope_tree.
  cbn [flat_map lexemes_of open close xml.Local app map attr_read
       xml.AttrName xml.Value Document.build].
  rewrite flat_map_app, build_leaves.
  cbn [flat_map lexemes_of open close xml.Local app map attr_read
       Document.build Document.add_child Document.fname Document.fattrs
       Document.fkids].
  rewrite String.eqb_refl.
  cbn [Document.build Document.add_child Document.fname Document.fattrs
       Document.fkids].
  rewrite flat_map_app, build_leaves.
  cbn [flat_map lexemes_of close xml.Local app
       Document.build Document.add_child Document.fname Document.fattrs
       Document.fkids].
  rewrite !app_nil_r, !rev_involutive. reflexivity.
Qed.

Lemma envelope_prints (p : PickupRequest) :
  exists out, xml.print [] (envelope_tokens FormatFloat p) = inr out.
Proof.
  destruct p as [nm sa pa s c]; destruct s; destruct c.
  lazy -[xml.EscapeString]. eexists. reflexivity.
Qed.

(** [xml.Marshal] succeeds on every request, and its bytes read back as
    the envelope. *)
Theorem Marshal_reads_back (p : PickupRequest) :
  exists xmlBytes,
    Marshal FormatFloat p = inr xmlBytes
    /\ Document.parse xmlBytes = Some (envelope_tree FormatFloat p).
Proof.
  destruct (envelope_prints p) as [out Hout].
  exists out. unfold Marshal, xml.Marshal. rewrite Marshal_tokens. split; [assumption|].
  unfold Document.parse.
  rewrite (lex_print _ [] out (String.length out) (envelope_lexable p) Hout (le_n _)).
  rewrite envelope_build. reflexivity.
Qed.

End PayloadReadBack.

(** ** Mode Controller *)

Section ModeController.

Lemma run_ops_testMode (ops : list ModeOp) :
  forall g, testMode (run_ops ops g) = testMode g && negb (promoted ops).
Proof.
  unfold run_ops.
  induction ops as [|op ops IH]; intros g; cbn [fold_left promoted existsb].
  - now rewrite andb_true_r.
  - fold (promoted ops). rewrite IH.
    destruct op as [[|]|v]; cbn [run_op SetProductionMode SetTimeout testMode orb negb].
    + now rewrite andb_false_r.
    + reflexivity.
    + reflexivity.
Qed.

Lemma promoted_app (a b : list ModeOp) :
  promoted (a ++ b) = promoted a || promoted b.
Proof. apply existsb_app. Qed.

(** C6.  [SetProductionMode(false)] leaves the package variables as
    they are in every state; and once [SetProductionMode(true)] has
    been called, whatever calls of the setters came before and whatever
    calls come after, the package is in production mode. *)
Theorem SetProductionMode_promote_only :
  (forall g : Globals, SetProductionMode false g = g)
  /\ (forall (before after : list ModeOp) (g : Globals),
         testMode (run_ops (before ++ CallSetProductionMode true :: after) g) = false).
Proof.
  split.
  - reflexivity.
  - intros before after g.
    rewrite run_ops_testMode, promoted_app. cbn [promoted existsb].
    now rewrite orb_true_r, andb_false_r.
Qed.

(** [SetTimeout] does not touch the mode, and [SetProductionMode] does
    not touch the timeout. *)
Lemma SetTimeout_testMode (v : time.Duration) (g : Globals) :
  testMode (SetTimeout v g) = testMode g.
Proof. reflexivity. Qed.

Lemma SetProductionMode_timeout (yes : bool) (g : Globals) :
  timeout (SetProductionMode yes g) = timeout g.
Proof. destruct yes; reflexivity. Qed.

Lemma wrap_small (z : Z) :
  Int64.min_signed <= z <= Int64.max_signed -> Int64.wrap z = z.
Proof.
  unfold Int64.wrap, Int64.min_signed, Int64.max_signed, Int64.half_modulus,
    Int64.modulus.
  intros H. rewrite Z.mod_small; lia.
Qed.

Lemma wrap_in_range (z : Z) : Int64.in_range (Int64.wrap z).
Proof.
  unfold Int64.in_range, Int64.wrap, Int64.min_signed, Int64.max_signed,
    Int64.half_modulus, Int64.modulus.
  pose proof (Z.mod_pos_bound (z + 2 ^ 63) (2 ^ 64) ltac:(lia)). lia.
Qed.

(** A number of seconds that fits an [int64] of nanoseconds is stored
    exactly. *)
Lemma SetTimeout_exact (v : time.Duration) (g : Globals) :
  -9223372036 <= v <= 9223372036 ->
  timeout (SetTimeout v g) = v * 1000000000.
Proof.
  intros H. cbn [SetTimeout timeout]. unfold Int64.mul.
  change time.Second with 1000000000.
  apply wrap_small. unfold Int64.min_signed, Int64.max_signed, Int64.half_modulus.
  lia.
Qed.

(** X4.  For an argument that is an [int64], the timeout that
    [SetTimeout] stores is the argument itself only when the argument
    is zero. *)
Lemma SetTimeout_fixed_point (v : time.Duration) (g : Globals) :
  Int64.in_range v -> timeout (SetTimeout v g) = v -> v = 0.
Proof.
  unfold Int64.in_range, Int64.min_signed, Int64.max_signed, Int64.half_modulus.
  cbn [SetTimeout timeout].
  unfold Int64.mul, Int64.wrap, Int64.half_modulus, Int64.modulus.
  change time.Second with 1000000000.
  intros Hr H.
  pose proof (Z.div_mod (v * 1000000000 + 2 ^ 63) (2 ^ 64) ltac:(lia)) as Hdm.
  set (q := (v * 1000000000 + 2 ^ 63) / 2 ^ 64) in *.
  assert (Hdiv : (2 ^ 64 | 999999999 * v)).
  { exists q. lia. }
  apply Z.gauss in Hdiv.
  - destruct Hdiv as [k Hk]. lia.
  - vm_compute. reflexivity.
Qed.

End ModeController.

(** ** RequestPickup *)

Section RequestPickupFacts.

Variable FormatFloat : float -> string.
Variable network : list http.Request -> http.Request -> http.Outcome.
Variable firstStartElement : string -> error + xml.Name.
Variable decodeInto :
  reflect.Kind -> xml.Name -> string -> ResponseData -> ResponseData * option error.



Lemma Marshal_payload (p : PickupRequest) :
  Marshal FormatFloat p = inr (payload FormatFloat p).
Proof.
  unfold payload. destruct (Marshal_reads_back FormatFloat p) as (b & -> & _).
  reflexivity.
Qed.

Lemma payload_parse (p : PickupRequest) :
  Document.parse (payload FormatFloat p) = Some (envelope_tree FormatFloat p).
Proof.
  unfold payload. destruct (Marshal_reads_back FormatFloat p) as (b & -> & H).
  exact H.
Qed.

(** The decoder refuses the map whatever the reply. *)
Lemma Unmarshal_map_fails (data : string) (m : ResponseData) :
  xml.Unmarshal_map ResponseData firstStartElement decodeInto data m
  = (m, Some (match firstStartElement data with
              | inl e => e
              | inr _ => errors_New "unknown type map[string]interface {}"
              end)).
Proof.
  unfold xml.Unmarshal_map, xml.unmarshal.
  destruct (firstStartElement data); reflexivity.
Qed.

(** The call, outcome by outcome. *)
Lemma RequestPickup_cases (g : Globals) (w : World) (p : PickupRequest) :
  let p' := set_Shipper_TestFlag (testMode g) (set_PicAttr pic (set_SoapenvAttr soapenv p)) in
  let req := request_for FormatFloat g p in
  let w1 := mkWorld (sent w ++ [req]) (closed w) (logged w) in
  let w2 := mkWorld (sent w ++ [req]) (S (closed w)) (logged w) in
  RequestPickup FormatFloat network firstStartElement decodeInto g w p =
  match network (sent w) req with
  | http.PostFailed e =>
    mkResult p' None
      (Some (errors_Wrap e "odfl.RequestPickup - could not make post request")) w1
  | http.Replied body (Some e) =>
    mkResult p' None
      (Some (errors_Wrap e "odfl.RequestPickup - could not read response 1")) w2
  | http.Replied body None =>
    mkResult p' None
      (Some (errors_Wrap
               (match firstStartElement body with
                | inl e => e
                | inr _ => errors_New "unknown type map[string]interface {}"
                end)
               "odfl.RequestPickup - could not read response 2")) w2
  end.
Proof.
  cbv zeta. unfold RequestPickup, request_for.
  rewrite Marshal_payload.
  destruct (network _ _) as [e|body [e|]]; try reflexivity.
  rewrite Unmarshal_map_fails. reflexivity.
Qed.

Lemma RequestPickup_sent (g : Globals) (w : World) (p : PickupRequest) :
  sent (world (RequestPickup FormatFloat network firstStartElement decodeInto g w p)) = (sent w ++ [request_for FormatFloat g p])%list.
Proof.
  rewrite RequestPickup_cases.
  destruct (network _ _) as [e|body [e|]]; reflexivity.
Qed.

Lemma RequestPickup_object (g : Globals) (w : World) (p : PickupRequest) :
  object (RequestPickup FormatFloat network firstStartElement decodeInto g w p)
  = set_Shipper_TestFlag (testMode g) (set_PicAttr pic (set_SoapenvAttr soapenv p)).
Proof.
  rewrite RequestPickup_cases.
  destruct (network _ _) as [e|body [e|]]; reflexivity.
Qed.

End RequestPickupFacts.

Section Claims.

Variable FormatFloat : float -> string.
Variable network : list http.Request -> http.Request -> http.Outcome.
Variable firstStartElement : string -> error + xml.Name.
Variable decodeInto :
  reflect.Kind -> xml.Name -> string -> ResponseData -> ResponseData * option error.

(** *** The test flag on the wire *)

Lemma descend_app (a b : list string) (n : Document.Node) :
  Document.descend (a ++ b) n
  = match Document.descend a n with
    | Some k => Document.descend b k
    | None => None
    end.
Proof.
  revert n. induction a as [|x a IH]; intros n; cbn [app Document.descend].
  - reflexivity.
  - destruct (Document.child x n); [apply IH | reflexivity].
Qed.

Lemma descend_shipper (p : PickupRequest) :
  Document.descend shipper_path (envelope_tree FormatFloat p)
  = Some (Document.Element "shipper" []
            (map (leaf_node) (shipper_wire (Shipper p)))).
Proof. reflexivity. Qed.

Lemma text_text_nodes (e : string) :
  String.concat "" (flat_map (fun k => match k with
                                       | Document.Text d => [d]
                                       | _ => []
                                       end) (text_nodes e)) = e.
Proof. destruct e; reflexivity. Qed.

(** Every payload carries the test flag that the request object held
    when the call was made. *)
Lemma payload_TestFlag_is_callers (p : PickupRequest) :
  payload_TestFlag (payload FormatFloat p)
  = Some (strconv.FormatBool (Shipper.TestFlag (Shipper p))).
Proof.
  unfold payload_TestFlag, payload_shipper_field.
  rewrite payload_parse, descend_app, descend_shipper.
  unfold shipper_wire.
  destruct (Shipper.TestFlag (Shipper p)); reflexivity.
Qed.

(** C1, at the failing inputs.  In test mode (no call of
    [SetProductionMode]) a request whose caller set [TestFlag] to false
    is posted with [<testFlag>false</testFlag>]; in production mode
    (after [SetProductionMode(true)]) a request whose caller set it to
    true is posted with [<testFlag>true</testFlag>].  The flag on the
    wire is the caller's, not the Mode Controller's. *)
Theorem TestFlag_on_the_wire_is_stale :
  (testMode (run_ops [] initial_globals) = true
   /\ map (fun r => payload_TestFlag (http.body r))
          (sent (world (RequestPickup FormatFloat network firstStartElement decodeInto
                                      (run_ops [] initial_globals) new_world
                                      (example_request false))))
      = [Some "false"])
  /\ (testMode (run_ops [CallSetProductionMode true] initial_globals) = false
      /\ map (fun r => payload_TestFlag (http.body r))
             (sent (world (RequestPickup FormatFloat network firstStartElement decodeInto
                                         (run_ops [CallSetProductionMode true] initial_globals)
                                         new_world (example_request true))))
         = [Some "true"]).
Proof.
  split; (split; [reflexivity|]);
    rewrite RequestPickup_sent; cbn [new_world sent app map request_for http.body];
    rewrite payload_TestFlag_is_callers; reflexivity.
Qed.

(** *** The envelope *)

Lemma paths_to_text_nodes (target e : string) :
  flat_map (Document.paths_to target) (text_nodes e) = [].
Proof. destruct e; reflexivity. Qed.

Lemma paths_to_leaves (target : string) (kvs : list (string * string)) :
  forallb (fun kv => negb (String.eqb (fst kv) target)) kvs = true ->
  flat_map (Document.paths_to target) (map leaf_node kvs) = [].
Proof.
  induction kvs as [|kv kvs IH]; cbn [forallb map flat_map]; intros H; [reflexivity|].
  apply andb_true_iff in H as [Hk H]. apply negb_true_iff in Hk.
  rewrite (IH H), app_nil_r. unfold leaf_node. cbn [Document.paths_to].
  now rewrite Hk, paths_to_text_nodes.
Qed.

(** In every payload there is one pickup request element, and it is
    reached from the root through the header and the body. *)
Lemma payload_pickupRequest_path (p : PickupRequest) :
  payload_pickupRequest_paths (payload FormatFloat p)
  = Some [["soapenv:Envelope"; "soapenv:Header"; "soapenv:Body"; "pic:pickupRequest"]].
Proof.
  unfold payload_pickupRequest_paths. rewrite payload_parse.
  unfold envelope_tree. cbn [Document.paths_to flat_map].
  rewrite !paths_to_leaves by reflexivity. reflexivity.
Qed.

(** The namespace attributes of every payload hold what the request
    object held when the call was made. *)
Lemma payload_namespaces_are_callers (p : PickupRequest) :
  payload_root_attr "xmlns:soapenv" (payload FormatFloat p)
  = Some (xml.EscapeString (SoapenvAttr p))
  /\ payload_root_attr "xmlns:pic" (payload FormatFloat p)
     = Some (xml.EscapeString (PicAttr p)).
Proof.
  unfold payload_root_attr. rewrite payload_parse. split; reflexivity.
Qed.

(** A later call on the same object posts what the first call left on
    it: the two namespaces, and the test flag of the mode at the first
    call. *)
Lemma second_call_payload (g : Globals) (w : World) (p : PickupRequest) :
  payload_root_attr "xmlns:soapenv"
    (payload FormatFloat
       (object (RequestPickup FormatFloat network firstStartElement decodeInto g w p)))
  = Some soapenv
  /\ payload_root_attr "xmlns:pic"
       (payload FormatFloat
          (object (RequestPickup FormatFloat network firstStartElement decodeInto g w p)))
     = Some pic
  /\ payload_TestFlag
       (payload FormatFloat
          (object (RequestPickup FormatFloat network firstStartElement decodeInto g w p)))
     = Some (strconv.FormatBool (testMode g)).
Proof.
  rewrite RequestPickup_object.
  destruct (payload_namespaces_are_callers
              (set_Shipper_TestFlag (testMode g)
                 (set_PicAttr pic (set_SoapenvAttr soapenv p)))) as [-> ->].
  rewrite payload_TestFlag_is_callers.
  repeat split; vm_compute; reflexivity.
Qed.

(** C2, at the failing input.  A request as the caller builds it, with
    the namespace attributes not yet set, is posted as an envelope
    whose pickup request element is the fourth on the chain envelope,
    header, body, pickup request, but whose root carries
    [xmlns:soapenv] and [xmlns:pic] with empty values: the two
    namespaces are not declared. *)
Theorem envelope_of_fresh_request :
  map (fun r => (payload_pickupRequest_paths (http.body r),
                 payload_root_attr "xmlns:soapenv" (http.body r),
                 payload_root_attr "xmlns:pic" (http.body r)))
      (sent (world (RequestPickup FormatFloat network firstStartElement decodeInto
                                  initial_globals new_world (example_request true))))
  = [(Some [["soapenv:Envelope"; "soapenv:Header"; "soapenv:Body"; "pic:pickupRequest"]],
      Some "", Some "")].
Proof.
  rewrite RequestPickup_sent. cbn [new_world sent app map request_for http.body].
  rewrite payload_pickupRequest_path.
  destruct (payload_namespaces_are_callers (example_request true)) as [-> ->].
  reflexivity.
Qed.

(** *** Wire names *)

Lemma child_names_leaves (kvs : list (string * string)) :
  flat_map (fun k => match k with
                     | Document.Element nm _ _ => [nm]
                     | Document.Text _ => []
                     end) (map leaf_node kvs)
  = map fst kvs.
Proof.
  induction kvs as [|kv kvs IH]; cbn [map flat_map]; [reflexivity|].
  now rewrite IH.
Qed.

(** The names of the shipper's children in every payload. *)
Lemma payload_shipper_names (p : PickupRequest) :
  match Document.parse (payload FormatFloat p) with
  | Some root => option_map Document.child_names (Document.descend shipper_path root)
  | None => None
  end
  = Some ["odfl4meUser"; "odfl4mePassword"; "companyName"; "addressLine1"; "city";
          "stateProvince"; "postalCode"; "Country"; "contactFName"; "contactLName";
          "phoneAreaCode"; "phoneNumber"; "testFlag"; "pickupDate"; "pickupTime";
          "pickupTimeAMPM"; "whoEntered"; "whoPhoneNumber"; "accountNumber";
          "attention"; "addressLine2"; "phoneExt"; "faxAreaCode"; "faxNumber";
          "email"; "comments"; "dockCloseTime"; "dockCloseAMPM"].
Proof.
  rewrite payload_parse, descend_shipper. cbn [option_map].
  unfold Document.child_names. cbn [Document.children].
  rewrite child_names_leaves. reflexivity.
Qed.

(** C4, at the failing input.  The shipper's country is posted as the
    element [Country]; the payload has no shipper child [country]. *)
Theorem shipper_country_wire_name :
  map (fun r => (payload_shipper_field "country" (http.body r),
                 payload_shipper_field "Country" (http.body r)))
      (sent (world (RequestPickup FormatFloat network firstStartElement decodeInto
                                  initial_globals new_world (example_request true))))
  = [(None, Some "USA")].
Proof.
  rewrite RequestPickup_sent. cbn [new_world sent app map request_for http.body].
  unfold payload_shipper_field. rewrite payload_parse, !descend_app, descend_shipper.
  reflexivity.
Qed.

End Claims.

Section Claims2.

Variable FormatFloat : float -> string.
Variable network : list http.Request -> http.Request -> http.Outcome.
Variable firstStartElement : string -> error + xml.Name.
Variable decodeInto :
  reflect.Kind -> xml.Name -> string -> ResponseData -> ResponseData * option error.

(** *** What the call leaves on the request object *)

(** C10.  Whatever the network and the decoder do, the call leaves the
    request object with [SoapenvAttr] and [PicAttr] set to the package's
    namespace constants and [Shipper.TestFlag] set to the current test
    mode, and with every other field as it was: [XMLName], the
    consignee, and each of the shipper's other fields.  (The marshal
    step succeeds on every request, see [Marshal_reads_back].) *)
Theorem RequestPickup_frame (g : Globals) (w : World) (p : PickupRequest) :
  let p' := object (RequestPickup FormatFloat network firstStartElement decodeInto g w p) in
  p' = set_Shipper_TestFlag (testMode g) (set_PicAttr pic (set_SoapenvAttr soapenv p))
  /\ (SoapenvAttr p' = soapenv
      /\ PicAttr p' = pic
      /\ Shipper.TestFlag (Shipper p') = testMode g)
  /\ XMLName p' = XMLName p
  /\ Consignee p' = Consignee p
  /\ (Shipper.ODFL4MeUser (Shipper p') = Shipper.ODFL4MeUser (Shipper p)
     /\ Shipper.ODFL4MePassword (Shipper p') = Shipper.ODFL4MePassword (Shipper p)
     /\ Shipper.CompanyName (Shipper p') = Shipper.CompanyName (Shipper p)
     /\ Shipper.AddressLine1 (Shipper p') = Shipper.AddressLine1 (Shipper p)
     /\ Shipper.City (Shipper p') = Shipper.City (Shipper p)
     /\ Shipper.StateProvince (Shipper p') = Shipper.StateProvince (Shipper p)
     /\ Shipper.PostalCode (Shipper p') = Shipper.PostalCode (Shipper p)
     /\ Shipper.Country (Shipper p') = Shipper.Country (Shipper p)
     /\ Shipper.ContactFName (Shipper p') = Shipper.ContactFName (Shipper p)
     /\ Shipper.ContactLName (Shipper p') = Shipper.ContactLName (Shipper p)
     /\ Shipper.PhoneAreaCode (Shipper p') = Shipper.PhoneAreaCode (Shipper p)
     /\ Shipper.PhoneNumber (Shipper p') = Shipper.PhoneNumber (Shipper p)
     /\ Shipper.PickupDate (Shipper p') = Shipper.PickupDate (Shipper p)
     /\ Shipper.PickupTime (Shipper p') = Shipper.PickupTime (Shipper p)
     /\ Shipper.PickupTimeAMPM (Shipper p') = Shipper.PickupTimeAMPM (Shipper p)
     /\ Shipper.WhoEntered (Shipper p') = Shipper.WhoEntered (Shipper p)
     /\ Shipper.WhoPhoneNumber (Shipper p') = Shipper.WhoPhoneNumber (Shipper p)
     /\ Shipper.AccountNumber (Shipper p') = Shipper.AccountNumber (Shipper p)
     /\ Shipper.Attention (Shipper p') = Shipper.Attention (Shipper p)
     /\ Shipper.AddressLine2 (Shipper p') = Shipper.AddressLine2 (Shipper p)
     /\ Shipper.PhoneExt (Shipper p') = Shipper.PhoneExt (Shipper p)
     /\ Shipper.FaxAreaCode (Shipper p') = Shipper.FaxAreaCode (Shipper p)
     /\ Shipper.FaxNumber (Shipper p') = Shipper.FaxNumber (Shipper p)
     /\ Shipper.Email (Shipper p') = Shipper.Email (Shipper p)
     /\ Shipper.Comments (Shipper p') = Shipper.Comments (Shipper p)
     /\ Shipper.DockCloseTime (Shipper p') = Shipper.DockCloseTime (Shipper p)
     /\ Shipper.DockCloseAMPM (Shipper p') = Shipper.DockCloseAMPM (Shipper p)).
Proof.
  cbv zeta. rewrite RequestPickup_object. repeat split; reflexivity.
Qed.

(** *** Timeout *)

(** C5, amended.  [SetTimeout(v)] stores [v * time.Second] (the [int64]
    product: [v] is read as a number of seconds), a later
    [SetProductionMode] leaves it there, and the client of every
    following [RequestPickup] is made with that timeout. *)
Theorem SetTimeout_stores_seconds
        (v : time.Duration) (yes : bool) (g : Globals) (w : World) (p : PickupRequest) :
  timeout (SetTimeout v g) = Int64.wrap (v * 1000000000)
  /\ Int64.in_range (timeout (SetTimeout v g))
  /\ timeout (SetProductionMode yes (SetTimeout v g)) = Int64.wrap (v * 1000000000)
  /\ timeouts_used (world (RequestPickup FormatFloat network firstStartElement decodeInto (SetTimeout v g) w p))
     = (timeouts_used w ++ [Int64.wrap (v * 1000000000)])%list.
Proof.
  split; [reflexivity|]. split; [apply wrap_in_range|].
  split; [destruct yes; reflexivity|].
  unfold timeouts_used. rewrite RequestPickup_sent, map_app. reflexivity.
Qed.

(** *** Transport failures *)

(** C9, amended.  The transport has two steps, and each wraps its
    failure with the name of the operation and returns the nil map.
    When the POST itself fails with an error [e] (no connection, the
    timeout elapsing before the response is returned, a fault during
    the POST), the call returns [e] wrapped as the transmission error.
    When the POST returns and reading the body fails with [e] (the
    timeout elapsing during the read included), the call returns [e]
    wrapped as the read error, which is not the transmission error. *)
Theorem transport_step_failure (g : Globals) (w : World) (p : PickupRequest) :
  (forall e : error,
      network (sent w) (request_for FormatFloat g p) = http.PostFailed e ->
      err (RequestPickup FormatFloat network firstStartElement decodeInto g w p)
      = Some (errors_Wrap e "odfl.RequestPickup - could not make post request")
      /\ TransmissionError (err (RequestPickup FormatFloat network firstStartElement decodeInto g w p)) = true
      /\ responseData (RequestPickup FormatFloat network firstStartElement decodeInto g w p) = None)
  /\ (forall (body : string) (e : error),
         network (sent w) (request_for FormatFloat g p) = http.Replied body (Some e) ->
         err (RequestPickup FormatFloat network firstStartElement decodeInto g w p)
         = Some (errors_Wrap e "odfl.RequestPickup - could not read response 1")
         /\ ReadError (err (RequestPickup FormatFloat network firstStartElement decodeInto g w p)) = true
         /\ TransmissionError (err (RequestPickup FormatFloat network firstStartElement decodeInto g w p)) = false
         /\ responseData (RequestPickup FormatFloat network firstStartElement decodeInto g w p) = None).
Proof.
  rewrite RequestPickup_cases. cbv zeta.
  split; [intros e H | intros body e H]; rewrite H; repeat split; reflexivity.
Qed.

(** *** Decoding *)

(** C3.  No call returns a nil error, and no call returns a map: the
    result map is nil on every path.  A call that gets as far as
    decoding (the POST returned and the body was read) returns the
    decode error, because the decoder has no case for a map. *)
Theorem RequestPickup_never_succeeds (g : Globals) (w : World) (p : PickupRequest) :
  err (RequestPickup FormatFloat network firstStartElement decodeInto g w p) <> None
  /\ responseData (RequestPickup FormatFloat network firstStartElement decodeInto g w p) = None
  /\ (forall body : string,
         network (sent w) (request_for FormatFloat g p) = http.Replied body None ->
         DecodeError (err (RequestPickup FormatFloat network firstStartElement decodeInto g w p)) = true).
Proof.
  rewrite RequestPickup_cases. cbv zeta.
  destruct (network _ _) as [e|body [e|]]; cbn [err responseData];
    (split; [discriminate|]); (split; [reflexivity|]);
    intros body' H; try discriminate H; reflexivity.
Qed.

(** C8.  Whatever the body of the reply, and so for a truncated one or
    one of another shape, the call returns the decode error and the nil
    map.  The wrapped cause is the tokenizer's error when the body has
    no start element, and [unknown type] otherwise. *)
Theorem reply_DecodeError (g : Globals) (w : World) (p : PickupRequest) (body : string) :
  network (sent w) (request_for FormatFloat g p) = http.Replied body None ->
  err (RequestPickup FormatFloat network firstStartElement decodeInto g w p)
  = Some (errors_Wrap
            (match firstStartElement body with
             | inl e => e
             | inr _ => errors_New "unknown type map[string]interface {}"
             end)
            "odfl.RequestPickup - could not read response 2")
  /\ DecodeError (err (RequestPickup FormatFloat network firstStartElement decodeInto g w p)) = true
  /\ responseData (RequestPickup FormatFloat network firstStartElement decodeInto g w p) = None.
Proof.
  intros H. rewrite RequestPickup_cases. cbv zeta. rewrite H.
  repeat split; reflexivity.
Qed.

(** C7, at the failing input.  A mock endpoint answers every request
    with a well-formed reply that holds one key and its value.  The
    call returns the decode error and the nil map, whatever the
    tokenizer makes of the reply. *)
Theorem wellformed_reply_is_not_decoded (g : Globals) (w : World) (p : PickupRequest) :
  DecodeError
    (err (RequestPickup FormatFloat (network_replies mock_reply) firstStartElement
                        decodeInto g w p)) = true
  /\ responseData
       (RequestPickup FormatFloat (network_replies mock_reply) firstStartElement
                      decodeInto g w p) = None.
Proof.
  rewrite RequestPickup_cases. split; reflexivity.
Qed.

End Claims2.

(** *** Concrete inputs *)

(** C5 as stated fails at [v = 5 * time.Second]: after
    [SetTimeout(5 * time.Second)] the timeout is not [v], and the
    request that follows is not made with [v], but with
    5000000000 seconds. *)
Lemma SetTimeout_five_seconds :
  timeout (SetTimeout (5 * time.Second) initial_globals) <> 5 * time.Second
  /\ timeouts_used
       (world (RequestPickup example_FormatFloat network_down example_firstStartElement
                             example_decodeInto
                             (SetTimeout (5 * time.Second) initial_globals)
                             new_world (example_request true)))
     <> [5 * time.Second]
  /\ timeout (SetTimeout (5 * time.Second) initial_globals) = 5000000000 * time.Second.
Proof.
  repeat split; vm_compute; try reflexivity; discriminate.
Qed.

(** C9 as stated fails when the configured timeout elapses while the
    body is read: the POST has returned, [ioutil.ReadAll] fails, and the
    call returns the read error, not the transmission error. *)
Lemma timeout_while_reading_body :
  err (RequestPickup example_FormatFloat network_read_timeout example_firstStartElement example_decodeInto
                     initial_globals new_world (example_request true))
  = Some (errors_Wrap
            (errors_New
               "net/http: request canceled (Client.Timeout exceeded while reading body)")
            "odfl.RequestPickup - could not read response 1")
  /\ TransmissionError
       (err (RequestPickup example_FormatFloat network_read_timeout example_firstStartElement example_decodeInto
                           initial_globals new_world (example_request true)))
     = false.
Proof.
  split; vm_compute; reflexivity.
Qed.

(** C9, amended, at concrete inputs: the network is down; and the
    timeout elapses while the body is read. *)
Lemma transport_step_failure_example :
  (network_down (sent new_world)
                (request_for example_FormatFloat initial_globals (example_request true))
   = http.PostFailed (errors_New "dial tcp: i/o timeout")
   /\ TransmissionError
        (err (RequestPickup example_FormatFloat network_down example_firstStartElement example_decodeInto
                            initial_globals new_world (example_request true))) = true)
  /\ (network_read_timeout
        (sent new_world)
        (request_for example_FormatFloat initial_globals (example_request true))
      = http.Replied
          ""
          (Some (errors_New
                   "net/http: request canceled (Client.Timeout exceeded while reading body)"))
      /\ ReadError
           (err (RequestPickup example_FormatFloat network_read_timeout example_firstStartElement example_decodeInto
                               initial_globals new_world (example_request true))) = true).
Proof.
  split; (split; [reflexivity|]).
  - apply (proj1 (transport_step_failure
                    example_FormatFloat network_down example_firstStartElement
                    example_decodeInto initial_globals new_world (example_request true))
                 (errors_New "dial tcp: i/o timeout")).
    reflexivity.
  - apply (proj2 (transport_step_failure
                    example_FormatFloat network_read_timeout example_firstStartElement
                    example_decodeInto initial_globals new_world (example_request true))
                 ""
                 (errors_New
                    "net/http: request canceled (Client.Timeout exceeded while reading body)")).
    reflexivity.
Defined.

(** C3 at a concrete input: the endpoint replies and the body is read. *)
Lemma RequestPickup_never_succeeds_example :
  DecodeError
    (err (RequestPickup example_FormatFloat (network_replies mock_reply) example_firstStartElement example_decodeInto
                        initial_globals new_world (example_request true))) = true.
Proof.
  apply (proj2 (proj2 (RequestPickup_never_succeeds
                         example_FormatFloat (network_replies mock_reply)
                         example_firstStartElement example_decodeInto
                         initial_globals new_world (example_request true)))
               mock_reply).
  reflexivity.
Defined.

(** C8 at a concrete input: the reply is cut off in the middle of a tag. *)
Lemma reply_DecodeError_example :
  network_replies truncated_reply (sent new_world)
                  (request_for example_FormatFloat initial_globals (example_request true))
  = http.Replied truncated_reply None
  /\ (err (RequestPickup example_FormatFloat (network_replies truncated_reply) example_firstStartElement example_decodeInto
                         initial_globals new_world (example_request true))
      = Some (errors_Wrap
                (match example_firstStartElement truncated_reply with
                 | inl e => e
                 | inr _ => errors_New "unknown type map[string]interface {}"
                 end)
                "odfl.RequestPickup - could not read response 2")
      /\ DecodeError
           (err (RequestPickup example_FormatFloat (network_replies truncated_reply) example_firstStartElement example_decodeInto
                               initial_globals new_world (example_request true))) = true
      /\ responseData
           (RequestPickup example_FormatFloat (network_replies truncated_reply) example_firstStartElement example_decodeInto
                          initial_globals new_world (example_request true)) = None).
Proof.
  split; [reflexivity|].
  apply (reply_DecodeError example_FormatFloat (network_replies truncated_reply)
                           example_firstStartElement example_decodeInto
                           initial_globals new_world (example_request true)
                           truncated_reply).
  reflexivity.
Defined.

(** ** Further properties of the package *)

(** *** The setters *)

Section Setters.

(** X1.  Starting from the package's initial state, the package is in
    test mode after a sequence of setter calls exactly when none of
    them was [SetProductionMode(true)]: calls of [SetTimeout] and of
    [SetProductionMode(false)] never change the mode. *)
Theorem test_mode_until_promoted (ops : list ModeOp) :
  testMode (run_ops ops initial_globals) = negb (promoted ops).
Proof.
  rewrite run_ops_testMode. reflexivity.
Qed.

Lemma last_SetTimeout_modes (yeses : list bool) :
  last_SetTimeout (map CallSetProductionMode yeses) = None.
Proof.
  induction yeses as [|yes yeses IH]; cbn [map last_SetTimeout]; [reflexivity|].
  now rewrite IH.
Qed.

(** X2.  After a sequence of setter calls the timeout is the one the
    last [SetTimeout] stored, its argument times [time.Second] as an
    [int64], whatever calls of [SetProductionMode] came after it; when
    there was no [SetTimeout] it is the timeout from before, and so the
    default of ten seconds after any calls of [SetProductionMode] from
    the initial state. *)
Theorem timeout_last_SetTimeout_wins (ops : list ModeOp) (yeses : list bool)
        (g : Globals) :
  timeout (run_ops ops g)
  = match last_SetTimeout ops with
    | Some v => Int64.mul v time.Second
    | None => timeout g
    end
  /\ timeout (run_ops (map CallSetProductionMode yeses) initial_globals)
     = 10000000000.
Proof.
  assert (H : forall ops' g', timeout (run_ops ops' g')
                              = match last_SetTimeout ops' with
                                | Some v => Int64.mul v time.Second
                                | None => timeout g'
                                end).
  { induction ops' as [|op ops' IH]; intros g'; [reflexivity|].
    change (run_ops (op :: ops') g') with (run_ops ops' (run_op g' op)).
    rewrite IH. cbn [last_SetTimeout].
    destruct (last_SetTimeout ops') as [v|]; [reflexivity|].
    destruct op as [yes|v]; [apply SetProductionMode_timeout | reflexivity]. }
  split; [apply H|].
  rewrite H, last_SetTimeout_modes. reflexivity.
Qed.

(** X3.  For an argument that is an [int64], [SetTimeout] stores the
    exact product, that many seconds in nanoseconds, if and only if the
    argument is between -9223372036 and 9223372036; beyond that the
    product overflows and the stored timeout is another value. *)
Theorem SetTimeout_exact_iff (v : time.Duration) (g : Globals) :
  Int64.in_range v ->
  (timeout (SetTimeout v g) = v * 1000000000 <-> -9223372036 <= v <= 9223372036).
Proof.
  intros Hv. split.
  - intros H. pose proof (wrap_in_range (v * 1000000000)) as Hr.
    cbn [SetTimeout timeout] in H. unfold Int64.mul in H.
    change time.Second with 1000000000 in H. rewrite H in Hr.
    unfold Int64.in_range, Int64.min_signed, Int64.max_signed,
      Int64.half_modulus in Hr.
    lia.
  - apply SetTimeout_exact.
Qed.

End Setters.

(** X3 at a concrete input: thirty seconds. *)
Lemma SetTimeout_exact_iff_example :
  Int64.in_range 30
  /\ (timeout (SetTimeout 30 initial_globals) = 30 * 1000000000
      <-> -9223372036 <= 30 <= 9223372036).
Proof.
  split.
  - unfold Int64.in_range, Int64.min_signed, Int64.max_signed, Int64.half_modulus. lia.
  - apply (SetTimeout_exact_iff 30 initial_globals).
    unfold Int64.in_range, Int64.min_signed, Int64.max_signed, Int64.half_modulus. lia.
Defined.

(** X4 at a concrete input: the only one there is. *)
Lemma SetTimeout_fixed_point_example :
  Int64.in_range 0 /\ timeout (SetTimeout 0 initial_globals) = 0 /\ 0 = 0.
Proof.
  assert (Hr : Int64.in_range 0).
  { unfold Int64.in_range, Int64.min_signed, Int64.max_signed, Int64.half_modulus. lia. }
  assert (Ht : timeout (SetTimeout 0 initial_globals) = 0) by reflexivity.
  split; [exact Hr|]. split; [exact Ht|].
  exact (SetTimeout_fixed_point 0 initial_globals Hr Ht).
Defined.

(** *** The call *)

Section CallFacts.

Variable FormatFloat : float -> string.
Variable network : list http.Request -> http.Request -> http.Outcome.
Variable firstStartElement : string -> error + xml.Name.
Variable decodeInto :
  reflect.Kind -> xml.Name -> string -> ResponseData -> ResponseData * option error.

(** X5.  When the POST returns a response but reading its body fails
    with an error [e], the call returns [e] wrapped with
    [could not read response 1], which is the read error and no other,
    and the nil map; the request object has been updated all the same. *)
Theorem read_failure (g : Globals) (w : World) (p : PickupRequest)
        (body : string) (e : error) :
  network (sent w) (request_for FormatFloat g p) = http.Replied body (Some e) ->
  err (RequestPickup FormatFloat network firstStartElement decodeInto g w p)
  = Some (errors_Wrap e "odfl.RequestPickup - could not read response 1")
  /\ ReadError (err (RequestPickup FormatFloat network firstStartElement decodeInto g w p))
     = true
  /\ DecodeError (err (RequestPickup FormatFloat network firstStartElement decodeInto g w p))
     = false
  /\ responseData (RequestPickup FormatFloat network firstStartElement decodeInto g w p)
     = None
  /\ object (RequestPickup FormatFloat network firstStartElement decodeInto g w p)
     = set_Shipper_TestFlag (testMode g) (set_PicAttr pic (set_SoapenvAttr soapenv p)).
Proof.
  intros H. rewrite RequestPickup_cases. cbv zeta. rewrite H.
  repeat split; reflexivity.
Qed.

(** X6.  The response body is closed exactly once by every call whose
    POST returned a response, whether reading and decoding then fail or
    not, and no body is closed by a call whose POST failed. *)
Theorem body_closed_once (g : Globals) (w : World) (p : PickupRequest) :
  closed (world (RequestPickup FormatFloat network firstStartElement decodeInto g w p))
  = match network (sent w) (request_for FormatFloat g p) with
    | http.PostFailed _ => closed w
    | http.Replied _ _ => S (closed w)
    end.
Proof.
  rewrite RequestPickup_cases. cbv zeta.
  destruct (network _ _) as [e|body [e|]]; reflexivity.
Qed.

(** X7.  Every call posts exactly one request, after those posted
    before: to the package's URL, with content type [text/xml], by a
    client whose timeout is the package's current timeout, and with the
    bytes that [xml.Marshal] returned for the request as its body. *)
Theorem one_post_per_call (g : Globals) (w : World) (p : PickupRequest) :
  exists req : http.Request,
    sent (world (RequestPickup FormatFloat network firstStartElement decodeInto g w p))
    = (sent w ++ [req])%list
    /\ http.url req = "http://www.odfl.com/wsPickup_v1b/services/ODPickupSOAP"
    /\ http.contentType req = "text/xml"
    /\ http.Timeout (http.client req) = timeout g
    /\ Marshal FormatFloat p = inr (http.body req).
Proof.
  exists (request_for FormatFloat g p).
  rewrite RequestPickup_sent.
  do 4 (split; [reflexivity|]).
  cbn [request_for http.body]. apply Marshal_payload.
Qed.

(** X8.  Calls do not retry and do not skip: after calling
    [RequestPickup] on a list of requests one after the other, the
    requests posted are those posted before followed by one request per
    call, in call order, whatever the network answered to each. *)
Theorem no_retry (g : Globals) (ps : list PickupRequest) :
  forall w : World,
    sent (RequestPickup_each FormatFloat network firstStartElement decodeInto g w ps)
    = (sent w ++ map (request_for FormatFloat g) ps)%list.
Proof.
  induction ps as [|p ps IH]; intros w; cbn [RequestPickup_each map].
  - now rewrite app_nil_r.
  - rewrite IH, RequestPickup_sent, <- app_assoc. reflexivity.
Qed.

(** X9.  No call logs anything: the line that prints the response data
    comes after the decoding, and the decoding never succeeds. *)
Theorem nothing_logged (g : Globals) (w : World) (p : PickupRequest) :
  logged (world (RequestPickup FormatFloat network firstStartElement decodeInto g w p))
  = logged w.
Proof.
  rewrite RequestPickup_cases. cbv zeta.
  destruct (network _ _) as [e|body [e|]]; reflexivity.
Qed.

(** X10.  Every call returns an error, and the error is of exactly one
    of three kinds, by what the network did: the transmission error
    when the POST failed, the read error when the body could not be
    read, the decode error otherwise.  It is never the serialization
    error, and its message starts with the name of the operation. *)
Theorem error_taxonomy (g : Globals) (w : World) (p : PickupRequest) :
  exists e : error,
    err (RequestPickup FormatFloat network firstStartElement decodeInto g w p) = Some e
    /\ String.prefix "odfl.RequestPickup - could not " (Error e) = true
    /\ SerializationError (Some e) = false
    /\ (TransmissionError (Some e), ReadError (Some e), DecodeError (Some e))
       = match network (sent w) (request_for FormatFloat g p) with
         | http.PostFailed _ => (true, false, false)
         | http.Replied _ (Some _) => (false, true, false)
         | http.Replied _ None => (false, false, true)
         end.
Proof.
  rewrite RequestPickup_cases. cbv zeta.
  destruct (network _ _) as [e|body [e|]]; cbn [err];
    eexists; (split; [reflexivity|]); repeat split.
Qed.

(** X11.  A further call on the object a call has left, under the same
    package variables, leaves the object as it is, and posts a payload
    whose root declares the two namespaces and whose test flag is the
    package's test mode. *)
Theorem second_call (g : Globals) (w w' : World) (p : PickupRequest) :
  object (RequestPickup FormatFloat network firstStartElement decodeInto g w'
            (object (RequestPickup FormatFloat network firstStartElement decodeInto g w p)))
  = object (RequestPickup FormatFloat network firstStartElement decodeInto g w p)
  /\ map (fun r => (payload_root_attr "xmlns:soapenv" (http.body r),
                    payload_root_attr "xmlns:pic" (http.body r),
                    payload_TestFlag (http.body r)))
         (sent (world (RequestPickup
                         FormatFloat network firstStartElement decodeInto g new_world
                         (object (RequestPickup FormatFloat network firstStartElement
                                                decodeInto g w p)))))
     = [(Some "http://schemas.xmlsoap.org/soap/envelope/",
         Some "http://pickup.ws.odfl.com",
         Some (if testMode g then "true" else "false"))].
Proof.
  split.
  - rewrite !RequestPickup_object. reflexivity.
  - rewrite RequestPickup_sent. cbn [new_world sent app map request_for http.body].
    destruct (second_call_payload FormatFloat network firstStartElement decodeInto g w p)
      as (-> & -> & ->).
    destruct (testMode g); reflexivity.
Qed.

End CallFacts.

(** X5 at a concrete input: the body of the reply ends early. *)
Lemma read_failure_example :
  ReadError
    (err (RequestPickup example_FormatFloat network_cut example_firstStartElement
                        example_decodeInto initial_globals new_world
                        (example_request true))) = true.
Proof.
  apply (read_failure example_FormatFloat network_cut example_firstStartElement
                      example_decodeInto initial_globals new_world
                      (example_request true) "<pickupRes"
                      (errors_New "unexpected EOF")).
  reflexivity.
Defined.

(** *** The payload *)

Section PayloadFacts.

Variable FormatFloat : float -> string.

Lemma descend_consignee (p : PickupRequest) :
  Document.descend consignee_path (envelope_tree FormatFloat p)
  = Some (Document.Element "Consignee" []
            (map leaf_node (consignee_wire FormatFloat (Consignee p)))).
Proof. reflexivity. Qed.

Lemma text_leaf_node (kv : string * string) :
  Document.text (leaf_node kv) = xml.EscapeString (snd kv).
Proof.
  unfold Document.text, leaf_node. cbn [Document.children]. apply text_text_nodes.
Qed.

Lemma child_leaf (k : string) (kvs : list (string * string)) (nm : string) :
  Document.child k (Document.Element nm [] (map leaf_node kvs))
  = option_map leaf_node (find (fun kv => String.eqb (fst kv) k) kvs).
Proof.
  unfold Document.child. cbn [Document.children].
  induction kvs as [|kv kvs IH]; cbn [map find]; [reflexivity|].
  cbn [leaf_node Document.name].
  destruct (String.eqb (fst kv) k); [reflexivity | exact IH].
Qed.

(** The text found under a tag of a list of fields is the escaped value
    of the first field with that tag. *)
Lemma leaf_field (k : string) (kvs : list (string * string)) (nm : string) :
  match Document.descend [k] (Document.Element nm [] (map leaf_node kvs)) with
  | Some n => Some (Document.text n)
  | None => None
  end
  = option_map (fun kv => xml.EscapeString (snd kv))
               (find (fun kv => String.eqb (fst kv) k) kvs).
Proof.
  cbn [Document.descend]. rewrite child_leaf.
  destruct (find _ kvs) as [kv|]; cbn [option_map]; [|reflexivity].
  now rewrite text_leaf_node.
Qed.

Lemma payload_shipper_field_find (p : PickupRequest) (k : string) :
  payload_shipper_field k (payload FormatFloat p)
  = option_map (fun kv => xml.EscapeString (snd kv))
               (find (fun kv => String.eqb (fst kv) k) (shipper_wire (Shipper p))).
Proof.
  unfold payload_shipper_field.
  rewrite payload_parse, descend_app, descend_shipper. apply leaf_field.
Qed.

Lemma payload_consignee_field_find (p : PickupRequest) (k : string) :
  payload_consignee_field k (payload FormatFloat p)
  = option_map (fun kv => xml.EscapeString (snd kv))
               (find (fun kv => String.eqb (fst kv) k)
                     (consignee_wire FormatFloat (Consignee p))).
Proof.
  unfold payload_consignee_field.
  rewrite payload_parse, descend_app, descend_consignee. apply leaf_field.
Qed.

(** X12.  Whatever the fields of a request hold, markup characters
    included, [xml.Marshal] succeeds and its bytes read back as one
    document of one fixed shape: a root [soapenv:Envelope] with the
    attributes [xmlns:soapenv] and [xmlns:pic], holding one header,
    holding one body, holding one pickup request, holding [shipper] and
    [consignees], the latter holding one [Consignee].  The value of the
    request's [XMLName] field has no part in it. *)
Theorem envelope_shape (p : PickupRequest) :
  Marshal FormatFloat p = inr (payload FormatFloat p)
  /\ payload_root (payload FormatFloat p)
     = Some ("soapenv:Envelope", ["xmlns:soapenv"; "xmlns:pic"])
  /\ payload_child_names [] (payload FormatFloat p) = Some ["soapenv:Header"]
  /\ payload_child_names ["soapenv:Header"] (payload FormatFloat p)
     = Some ["soapenv:Body"]
  /\ payload_child_names ["soapenv:Header"; "soapenv:Body"] (payload FormatFloat p)
     = Some ["pic:pickupRequest"]
  /\ payload_child_names ["soapenv:Header"; "soapenv:Body"; "pic:pickupRequest"]
                         (payload FormatFloat p)
     = Some ["shipper"; "consignees"]
  /\ payload_child_names
       ["soapenv:Header"; "soapenv:Body"; "pic:pickupRequest"; "consignees"]
       (payload FormatFloat p)
     = Some ["Consignee"].
Proof.
  split; [apply Marshal_payload|].
  unfold payload_root, payload_child_names. rewrite payload_parse.
  repeat split.
Qed.

(** X13.  The consignee's fields are posted as the children of
    [Consignee], one element per field in the order of the struct, under
    the names of their struct tags. *)
Theorem consignee_wire_names (p : PickupRequest) :
  payload_child_names consignee_path (payload FormatFloat p)
  = Some ["customerShipmentId"; "city"; "stateProvince"; "postalCode";
        "country"; "phoneAreaCode"; "phoneNumber"; "handlingUnits"; "pieces";
        "unitType"; "weight"; "paymentMethod"; "companyName"; "addressLine1";
        "addressLine2"; "contactFName"; "contactLName"; "phoneExt";
        "faxAreaCode"; "faxNumber"; "email"; "hazmat"; "freezable";
        "description"].
Proof.
  unfold payload_child_names. rewrite payload_parse, descend_consignee.
  unfold Document.child_names. cbn [Document.children].
  rewrite child_names_leaves. reflexivity.
Qed.

(** X14.  Each text field of the shipper reaches the wire under its
    element, as the escaped value of that field: the text read back
    under each name is the encoder's escaping of what the request held
    in the field of that name. *)
Theorem shipper_fields_on_the_wire (p : PickupRequest) :
  map (fun kv => payload_shipper_field (fst kv) (payload FormatFloat p))
      (shipper_wire (Shipper p))
  = map (fun kv => Some (xml.EscapeString (snd kv))) (shipper_wire (Shipper p)).
Proof.
  unfold shipper_wire. cbn [map fst snd].
  rewrite !payload_shipper_field_find. reflexivity.
Qed.

(** X15.  Each field of the consignee reaches the wire under its
    element: the text fields escaped, the two counts in decimal, the
    weight as [strconv.FormatFloat] writes it. *)
Theorem consignee_fields_on_the_wire (p : PickupRequest) :
  map (fun kv => payload_consignee_field (fst kv) (payload FormatFloat p))
      (consignee_wire FormatFloat (Consignee p))
  = map (fun kv => Some (xml.EscapeString (snd kv)))
        (consignee_wire FormatFloat (Consignee p))
  /\ payload_consignee_field "country" (payload FormatFloat p)
     = Some (xml.EscapeString (Consignee.Country (Consignee p)))
  /\ payload_consignee_field "weight" (payload FormatFloat p)
     = Some (xml.EscapeString (FormatFloat (Consignee.Weight (Consignee p)))).
Proof.
  split.
  - unfold consignee_wire. cbn [map fst snd].
    rewrite !payload_consignee_field_find. reflexivity.
  - rewrite !payload_consignee_field_find. split; reflexivity.
Qed.

(** Plain text is its own escaping. *)
Lemma escape_runes_plain (s : string) :
  forall fuel : nat,
    (String.length s <= fuel)%nat ->
    plain_text s = true ->
    xml.escape_runes fuel s = s.
Proof.
  induction s as [|c t IH]; intros fuel Hfuel Hplain.
  - destruct fuel; reflexivity.
  - destruct fuel as [|fuel]; [cbn in Hfuel; lia|].
    cbn [plain_text all_chars] in Hplain.
    apply andb_true_iff in Hplain as [Hc Ht].
    unfold plain_char in Hc. cbv zeta in Hc.
    repeat match type of Hc with
           | _ && _ = true =>
             let H := fresh "H" in apply andb_true_iff in Hc as [Hc H]
           end.
    repeat match goal with
           | H : negb _ = true |- _ => apply negb_true_iff in H
           | H : (_ =? _)%N = false |- _ => apply N.eqb_neq in H
           | H : (_ <=? _)%N = true |- _ => apply N.leb_le in H
           end.
    cbn [xml.escape_runes utf8.DecodeRuneInString].
    destruct (N.ltb_spec (N_of_ascii c) 128); [|lia].
    unfold xml.escape_of, xml.isInCharacterRange, utf8.RuneError.
    repeat match goal with
           | |- context [N.eqb ?a ?b] =>
             destruct (N.eqb_spec a b); try (exfalso; lia)
           | |- context [N.leb ?a ?b] =>
             destruct (N.leb_spec a b); try (exfalso; lia)
           end.
    cbn [orb andb negb strings.take strings.drop append].
    rewrite IH; [reflexivity | cbn in Hfuel; lia | exact Ht].
Qed.

Lemma EscapeString_plain (s : string) :
  plain_text s = true -> xml.EscapeString s = s.
Proof.
  intros H. apply escape_runes_plain; [apply le_n | exact H].
Qed.

Lemma find_unique (k v : string) (kvs : list (string * string)) :
  NoDup (map fst kvs) ->
  In (k, v) kvs ->
  find (fun kv => String.eqb (fst kv) k) kvs = Some (k, v).
Proof.
  induction kvs as [|[k' v'] kvs IH]; cbn [map fst find In]; intros Hnd Hin.
  - contradiction.
  - inversion Hnd as [|? ? Hnotin Hnd']; subst.
    destruct Hin as [Heq|Hin].
    + injection Heq as -> ->. now rewrite String.eqb_refl.
    + destruct (String.eqb_spec k' k) as [->|Hne].
      * exfalso. apply Hnotin. apply (in_map fst) in Hin. exact Hin.
      * now apply IH.
Qed.

Lemma shipper_wire_NoDup (s : Shipper.t) : NoDup (map fst (shipper_wire s)).
Proof.
  unfold shipper_wire. cbn [map fst].
  repeat (constructor; [cbn [In]; intuition discriminate|]). constructor.
Qed.

Lemma consignee_wire_NoDup (c : Consignee.t) :
  NoDup (map fst (consignee_wire FormatFloat c)).
Proof.
  unfold consignee_wire. cbn [map fst].
  repeat (constructor; [cbn [In]; intuition discriminate|]). constructor.
Qed.

(** X16.  A field value of printable ASCII without the five characters
    that XML escapes is posted verbatim: the text read back under the
    field's element is the value itself, for the shipper's fields and
    for the consignee's. *)
Theorem plain_fields_verbatim (p : PickupRequest) (tag value : string) :
  plain_text value = true ->
  (In (tag, value) (shipper_wire (Shipper p)) ->
   payload_shipper_field tag (payload FormatFloat p) = Some value)
  /\ (In (tag, value) (consignee_wire FormatFloat (Consignee p)) ->
      payload_consignee_field tag (payload FormatFloat p) = Some value).
Proof.
  intros Hplain. split; intros Hin.
  - rewrite payload_shipper_field_find.
    rewrite (find_unique tag value _ (shipper_wire_NoDup _) Hin).
    cbn [option_map snd]. now rewrite EscapeString_plain.
  - rewrite payload_consignee_field_find.
    rewrite (find_unique tag value _ (consignee_wire_NoDup _) Hin).
    cbn [option_map snd]. now rewrite EscapeString_plain.
Qed.

Lemma digits_plain (d : Decimal.uint) :
  plain_text (NilEmpty.string_of_uint d) = true.
Proof.
  induction d; cbn [NilEmpty.string_of_uint plain_text all_chars];
    try reflexivity; fold (plain_text (NilEmpty.string_of_uint d));
    rewrite IHd; reflexivity.
Qed.

Lemma FormatUint_plain (n : N) : plain_text (strconv.FormatUint n) = true.
Proof.
  unfold strconv.FormatUint, NilZero.string_of_uint.
  destruct (N.to_uint n) eqn:E; try reflexivity; rewrite <- E;
    apply digits_plain.
Qed.

Lemma ParseUint_FormatUint (n : N) : ParseUint (strconv.FormatUint n) = Some n.
Proof.
  unfold ParseUint, strconv.FormatUint.
  destruct n as [|q]; [reflexivity|].
  rewrite NilZero.usu.
  - cbn [option_map]. f_equal. apply DecimalN.Unsigned.of_to.
  - apply DecimalPos.Unsigned.to_uint_nonnil.
Qed.

(** X17.  The handling units and the pieces are posted as decimal
    numbers, nothing escaped in them, and the text on the wire reads
    back as the number the request held. *)
Theorem counts_on_the_wire (p : PickupRequest) :
  (payload_consignee_field "handlingUnits" (payload FormatFloat p)
   = Some (strconv.FormatUint (Consignee.HandlingUnits (Consignee p)))
   /\ ParseUint (strconv.FormatUint (Consignee.HandlingUnits (Consignee p)))
      = Some (Consignee.HandlingUnits (Consignee p)))
  /\ (payload_consignee_field "pieces" (payload FormatFloat p)
      = Some (strconv.FormatUint (Consignee.Pieces (Consignee p)))
      /\ ParseUint (strconv.FormatUint (Consignee.Pieces (Consignee p)))
         = Some (Consignee.Pieces (Consignee p))).
Proof.
  rewrite !payload_consignee_field_find.
  assert (Hunits : find (fun kv => String.eqb (fst kv) "handlingUnits")
                        (consignee_wire FormatFloat (Consignee p))
                   = Some ("handlingUnits",
                           strconv.FormatUint (Consignee.HandlingUnits (Consignee p))))
    by reflexivity.
  assert (Hpieces : find (fun kv => String.eqb (fst kv) "pieces")
                         (consignee_wire FormatFloat (Consignee p))
                    = Some ("pieces",
                            strconv.FormatUint (Consignee.Pieces (Consignee p))))
    by reflexivity.
  rewrite Hunits, Hpieces. cbn [option_map snd].
  rewrite !EscapeString_plain by apply FormatUint_plain.
  rewrite !ParseUint_FormatUint. repeat split.
Qed.

End PayloadFacts.

(** X16 at a concrete input: the shipper's company name. *)
Lemma plain_fields_verbatim_example :
  plain_text "Acme Tools" = true
  /\ payload_shipper_field "companyName"
       (payload example_FormatFloat (example_request true))
     = Some "Acme Tools".
Proof.
  split; [reflexivity|].
  apply (proj1 (plain_fields_verbatim example_FormatFloat (example_request true)
                                      "companyName" "Acme Tools" eq_refl)).
  cbn. tauto.
Defined.
